(** * vue-css-modules-extension: the completion cache of the language server

    A shallow embedding of [server/src/server.ts] and
    [server/src/parser/vue.ts].  The Vue single-file-component parser and
    the three stylesheet language services are external libraries: they
    are taken as parameters of the development (Section variables), each
    call either returning a value or throwing.

    Strings are [String.string]; every character the code tests for
    (['.'], ['/']) is ASCII, so reading a JavaScript string by UTF-16
    code unit and reading it by byte agree on those tests. *)

From Stdlib Require Import String Ascii List Bool Arith ZArith Lia.
Import ListNotations.
Local Open Scope string_scope.

(** ** JavaScript primitives used by the server *)

Module Js.

(** [s.slice(b, e)] for [0 <= b <= e]. *)
Definition slice (b e : nat) (s : string) : string :=
  String.substring b (e - b) s.

(** [s.slice(b)]: from index [b] to the end. *)
Definition slice_from (b : nat) (s : string) : string :=
  String.substring b (String.length s) s.

(** [s.split(sep)] for a one-character separator. The result is never
    empty: [''.split('/')] is [['']]. *)
Fixpoint split (sep : ascii) (s : string) : list string :=
  match s with
  | EmptyString => [""]
  | String c r =>
      if Ascii.eqb c sep then "" :: split sep r
      else match split sep r with
           | [] => [String c ""]
           | h :: t => String c h :: t
           end
  end.

(** [xs.pop()] as a value: the last element, [undefined] on []. *)
Fixpoint pop {A : Type} (xs : list A) : option A :=
  match xs with
  | [] => None
  | [x] => Some x
  | _ :: r => pop r
  end.

(** Truthiness of a string: only [''] is falsy. *)
Definition truthy_string (s : string) : bool :=
  negb (s =? "").

(** Truthiness of [string | undefined] and of [string | null]. *)
Definition truthy_opt_string (o : option string) : bool :=
  match o with
  | Some s => truthy_string s
  | None => false
  end.

(** [o || dflt] on [string | undefined]. *)
Definition or_string (o : option string) (dflt : string) : string :=
  match o with
  | Some s => if truthy_string s then s else dflt
  | None => dflt
  end.

(** Every object is truthy, the empty array included. *)
Definition truthy_array {A : Type} (xs : list A) : bool := true.

(** [string | boolean], the type of the [module] attribute. *)
Inductive StringOrBoolean :=
| Str (s : string)
| Boolean (b : bool).

Definition truthy_string_or_boolean (o : option StringOrBoolean) : bool :=
  match o with
  | Some (Str s) => truthy_string s
  | Some (Boolean b) => b
  | None => false
  end.

End Js.

(** ** An insertion-ordered map, as JavaScript's [Map<string, V>] *)

Module JsMap.

Definition t (V : Type) : Type := list (string * V).

Definition empty {V : Type} : t V := [].

Fixpoint get {V : Type} (k : string) (m : t V) : option V :=
  match m with
  | [] => None
  | (k', v) :: r => if k' =? k then Some v else get k r
  end.

(** [set] keeps the position of a key that is already present and
    appends a new key at the end. *)
Fixpoint set {V : Type} (k : string) (v : V) (m : t V) : t V :=
  match m with
  | [] => [(k, v)]
  | (k', v') :: r =>
      if k' =? k then (k', v) :: r else (k', v') :: set k v r
  end.

Fixpoint delete {V : Type} (k : string) (m : t V) : t V :=
  match m with
  | [] => []
  | (k', v') :: r =>
      if k' =? k then r else (k', v') :: delete k r
  end.

Definition keys {V : Type} (m : t V) : list string := map fst m.

(** [[...m.values()]]: the values in insertion order. *)
Definition values {V : Type} (m : t V) : list V := map snd m.

End JsMap.

(** ** Protocol and library types *)

(** [SymbolKind] of vscode-languageserver-types. *)
Module SymbolKind.
Inductive t :=
| File | Module_ | Namespace | Package | Class | Method | Property
| Field | Constructor | Enum | Interface | Function_ | Variable_
| Constant | String_ | Number | Boolean | Array | Object | Key | Null
| EnumMember | Struct | Event | Operator | TypeParameter.

Definition eqb (a b : t) : bool :=
  match a, b with
  | File, File | Module_, Module_ | Namespace, Namespace
  | Package, Package | Class, Class | Method, Method
  | Property, Property | Field, Field | Constructor, Constructor
  | Enum, Enum | Interface, Interface | Function_, Function_
  | Variable_, Variable_ | Constant, Constant | String_, String_
  | Number, Number | Boolean, Boolean | Array, Array
  | Object, Object | Key, Key | Null, Null
  | EnumMember, EnumMember | Struct, Struct | Event, Event
  | Operator, Operator | TypeParameter, TypeParameter => true
  | _, _ => false
  end.
End SymbolKind.

(** [CompletionItemKind] of the language server protocol. *)
Module CompletionItemKind.
Inductive t :=
| Text | Method | Function_ | Constructor | Field | Variable_ | Class
| Interface | Module_ | Property | Unit | Value | Enum | Keyword
| Snippet | Color | File | Reference | Folder | EnumMember | Constant
| Struct | Event | Operator | TypeParameter.
End CompletionItemKind.

(** The fields of [SymbolInformation] that the server reads. *)
Module SymbolInformation.
Record t := mk { name : string; kind : SymbolKind.t }.
End SymbolInformation.

(** The fields of [CompletionItem] that the server writes. *)
Module CompletionItem.
Record t := mk { label : string; kind : CompletionItemKind.t }.
End CompletionItem.

(** [TextDocument.create(uri, languageId, version, content)]. *)
Module TextDocument.
Record t := create {
  uri : string;
  languageId : string;
  version : Z;
  getText : string
}.
End TextDocument.

(** The fields of [SFCBlock] that the server reads:
    [content: string], [lang?: string], [module?: string | boolean]. *)
Record SFCBlock := mkSFCBlock {
  content : string;
  lang : option string;
  module : option Js.StringOrBoolean
}.

(** [SFCDescriptor], with [styles: SFCBlock[]]. *)
Record SFCDescriptor := mkSFCDescriptor {
  styles : list SFCBlock
}.

Record Position := mkPosition { line : Z; character : Z }.

Record TextDocumentPositionParams := mkTextDocumentPositionParams {
  textDocument : string;
  position : Position
}.

(** ** Exceptions *)

Definition Exn : Type := string.

Inductive Result (A : Type) : Type :=
| Ok (a : A)
| Throw (e : Exn).
Arguments Ok {A} a.
Arguments Throw {A} e.

(** A stylesheet language service: the two methods the server calls. *)
Record LanguageService (Stylesheet : Type) := mkLanguageService {
  parseStylesheet : TextDocument.t -> Result Stylesheet;
  findDocumentSymbols :
    TextDocument.t -> Stylesheet -> Result (list SymbolInformation.t)
}.
Arguments parseStylesheet {Stylesheet} _ _.
Arguments findDocumentSymbols {Stylesheet} _ _ _.

(** ** server.ts: module-level state *)

Record Settings := mkSettings { maxNumberOfProblems : Z }.

Definition defaultSettings : Settings := {| maxNumberOfProblems := 1000 |}.






(** [change.settings] of a configuration change, of type [any]: [null] or
    [undefined], or a value whose property [languageServerExample] is the
    settings, [None] when that property is missing or falsy. *)
Inductive ChangeSettings :=
| SettingsNullish
| SettingsObject (languageServerExample : option Settings).

(** Reading a property of [null] or [undefined]. The text of the message
    depends on the engine and is not modelled. *)
Definition TypeError : Exn := "TypeError".

Record Server := mkServer {
  hasConfigurationCapability : bool;
  completionItems : list CompletionItem.t;
  compItemMap : JsMap.t CompletionItem.t;
  globalSettings : Settings;
  documentSettings : JsMap.t Settings;
  documents : JsMap.t TextDocument.t
}.

(** The state when the module has been loaded. *)
Definition initial : Server := {|
  hasConfigurationCapability := false;
  completionItems := [];
  compItemMap := JsMap.empty;
  globalSettings := defaultSettings;
  documentSettings := JsMap.empty;
  documents := JsMap.empty
|}.

Definition with_completionItems (l : list CompletionItem.t) (s : Server) : Server :=
  {| hasConfigurationCapability := hasConfigurationCapability s;
     completionItems := l;
     compItemMap := compItemMap s;
     globalSettings := globalSettings s;
     documentSettings := documentSettings s;
     documents := documents s |}.

Definition with_compItemMap (m : JsMap.t CompletionItem.t) (s : Server) : Server :=
  {| hasConfigurationCapability := hasConfigurationCapability s;
     completionItems := completionItems s;
     compItemMap := m;
     globalSettings := globalSettings s;
     documentSettings := documentSettings s;
     documents := documents s |}.

Definition with_globalSettings (g : Settings) (s : Server) : Server :=
  {| hasConfigurationCapability := hasConfigurationCapability s;
     completionItems := completionItems s;
     compItemMap := compItemMap s;
     globalSettings := g;
     documentSettings := documentSettings s;
     documents := documents s |}.

Definition with_documentSettings (d : JsMap.t Settings) (s : Server) : Server :=
  {| hasConfigurationCapability := hasConfigurationCapability s;
     completionItems := completionItems s;
     compItemMap := compItemMap s;
     globalSettings := globalSettings s;
     documentSettings := d;
     documents := documents s |}.

Definition with_documents (d : JsMap.t TextDocument.t) (s : Server) : Server :=
  {| hasConfigurationCapability := hasConfigurationCapability s;
     completionItems := completionItems s;
     compItemMap := compItemMap s;
     globalSettings := globalSettings s;
     documentSettings := documentSettings s;
     documents := d |}.

Definition with_hasConfigurationCapability (b : bool) (s : Server) : Server :=
  {| hasConfigurationCapability := b;
     completionItems := completionItems s;
     compItemMap := compItemMap s;
     globalSettings := globalSettings s;
     documentSettings := documentSettings s;
     documents := documents s |}.

(** ** Statements that mutate the state and may throw

    A throw leaves every mutation made before it in place. *)

Definition M (A : Type) : Type := Server -> Result A * Server.

Definition ret {A : Type} (a : A) : M A := fun s => (Ok a, s).

Definition bind {A B : Type} (c : M A) (k : A -> M B) : M B :=
  fun s =>
    match c s with
    | (Ok a, s') => k a s'
    | (Throw e, s') => (Throw e, s')
    end.

(** A call into a library that returns or throws. *)
Definition call {A : Type} (r : Result A) : M A := fun s => (r, s).

Definition modify (f : Server -> Server) : M unit := fun s => (Ok tt, f s).

Definition gets {A : Type} (f : Server -> A) : M A := fun s => (Ok (f s), s).

Declare Scope server_scope.
Delimit Scope server_scope with server.
Notation "x <- c ;; k" := (bind c (fun x => k))
  (at level 61, c at next level, right associativity) : server_scope.
Notation "c ;; k" := (bind c (fun _ => k))
  (at level 61, right associativity) : server_scope.
Local Open Scope server_scope.

(** [for (let i = 0; i < xs.length; i++) body(xs[i])]. *)
Fixpoint for_each {A : Type} (xs : list A) (body : A -> M unit) : M unit :=
  match xs with
  | [] => ret tt
  | x :: r => body x ;; for_each r body
  end.

(** ** server.ts: [getLanguageService] *)

(** The three factory functions of vscode-css-languageservice. *)
Inductive LanguageServiceFactory :=
| getCSSLanguageService
| getSCSSLanguageService
| getLESSLanguageService.

Definition getLanguageService (fileExtension : string) : LanguageServiceFactory :=
  if fileExtension =? ".less" then getLESSLanguageService
  else if fileExtension =? ".scss" then getSCSSLanguageService
  else getCSSLanguageService.

(** ** parser/vue.ts *)

Record VueParser := mkVueParser { descriptor : SFCDescriptor }.

(** [return this.descriptor.styles || null] *)
Definition getStyles (this : VueParser) : option (list SFCBlock) :=
  if Js.truthy_array (styles (descriptor this))
  then Some (styles (descriptor this))
  else None.

(** ** server.ts: the body of the symbol loop *)

(** [sym.name.slice(0, 1) === '.' ? sym.name.slice(1) : null] *)
Definition className_of (sym : SymbolInformation.t) : option string :=
  if Js.slice 0 1 (SymbolInformation.name sym) =? "."
  then Some (Js.slice_from 1 (SymbolInformation.name sym))
  else None.

Definition isClassSymbol (sym : SymbolInformation.t) : bool :=
  SymbolKind.eqb (SymbolInformation.kind sym) SymbolKind.Class.

(** The guard [if (!isClassSymbol || !className) continue], as the test
    that the loop body goes on. *)
Definition accepted (sym : SymbolInformation.t) : bool :=
  negb (negb (isClassSymbol sym) || negb (Js.truthy_opt_string (className_of sym))).

Definition symbol_step (sym : SymbolInformation.t) : M unit :=
  let isClassSymbol := isClassSymbol sym in
  let className := className_of sym in
  if negb isClassSymbol || negb (Js.truthy_opt_string className) then ret tt
  else
    match className with
    | None => ret tt
    | Some className =>
        let completionItem :=
          {| CompletionItem.label := className;
             CompletionItem.kind := CompletionItemKind.Property |} in
        found <- gets (fun s => JsMap.get className (compItemMap s)) ;;
        match found with
        | Some _ => ret tt
        | None =>
            modify (fun s =>
              with_compItemMap (JsMap.set className completionItem (compItemMap s)) s)
        end
    end.

(** ** The symbol loop as a function on the keys of the mapping *)

Definition item_of (className : string) : CompletionItem.t :=
  {| CompletionItem.label := className;
     CompletionItem.kind := CompletionItemKind.Property |}.

(** The mapping that holds the keys [ks], each with its own item. *)
Definition entries (ks : list string) : JsMap.t CompletionItem.t :=
  map (fun k => (k, item_of k)) ks.

(** The bare identifier of a symbol that passes the guard. *)
Definition bare_name (sym : SymbolInformation.t) : option string :=
  if accepted sym then className_of sym else None.

Definition mem (c : string) (ks : list string) : bool :=
  existsb (String.eqb c) ks.

Definition add_label (ks : list string) (c : string) : list string :=
  if mem c ks then ks else ks ++ [c].

Definition add_symbol (ks : list string) (sym : SymbolInformation.t) : list string :=
  match bare_name sym with
  | Some c => add_label ks c
  | None => ks
  end.

Definition nonempty (c : string) : Prop := c <> "".

(** The bare identifiers of the accepted symbols, in symbol order. *)
Definition accepted_labels (syms : list SymbolInformation.t) : list string :=
  flat_map (fun sym => match bare_name sym with Some c => [c] | None => [] end) syms.

(** The state a rebuild publishes when the mapping holds the keys [ks]. *)
Definition publish (ks : list string) (s : Server) : Server :=
  with_completionItems (map item_of ks) (with_compItemMap (entries ks) s).

(** The libraries the server imports, as one injected capability:
    [parse] of @vue/component-compiler-utils, given source and filename,
    and the services the three factories of vscode-css-languageservice
    return. *)
Record Libraries := mkLibraries {
  Stylesheet : Type;
  parse : string -> string -> Result SFCDescriptor;
  cssService : LanguageService Stylesheet;
  scssService : LanguageService Stylesheet;
  lessService : LanguageService Stylesheet
}.

Section Server.

Variable libs : Libraries.

(** [languageService()] *)
Definition call_factory (f : LanguageServiceFactory) : LanguageService (Stylesheet libs) :=
  match f with
  | getCSSLanguageService => cssService libs
  | getSCSSLanguageService => scssService libs
  | getLESSLanguageService => lessService libs
  end.

(** [new VueParser({ source, filename })] *)
Definition new_VueParser (source filename : string) : Result VueParser :=
  match parse libs source filename with
  | Ok d => Ok {| descriptor := d |}
  | Throw e => Throw e
  end.

(** The body of the loop over the style blocks of one document. *)
Definition style_step (textDocument : TextDocument.t) (style : SFCBlock) : M unit :=
  let isModule := Js.truthy_string_or_boolean (module style) in
  if negb isModule then ret tt
  else
    let lang := Js.or_string (lang style) "css" in
    let languageService := getLanguageService lang in
    let service := call_factory languageService in
    let document :=
      TextDocument.create (TextDocument.uri textDocument) lang 0 (content style) in
    styleSheet <- call (parseStylesheet service document) ;;
    documentSymbols <- call (findDocumentSymbols service document styleSheet) ;;
    for_each documentSymbols symbol_step ;;
    modify (fun s => with_completionItems (JsMap.values (compItemMap s)) s).

(** [validateTextDocument]. The function is [async] and has no [await]:
    its body runs to the end when it is called, and a throw rejects the
    promise it returns. *)
Definition validateTextDocument (textDocument : TextDocument.t) : M unit :=
  modify (with_compItemMap JsMap.empty) ;;
  modify (with_completionItems []) ;;
  let filename :=
    Js.or_string (Js.pop (Js.split "/" (TextDocument.uri textDocument))) "" in
  parser <- call (new_VueParser (TextDocument.getText textDocument) filename) ;;
  let styles :=
    match getStyles parser with
    | Some l => l
    | None => []
    end in
  for_each styles (style_step textDocument).

(** ** server.ts: the handlers *)

(** [documents.onDidChangeContent]: nobody awaits the promise of
    [validateTextDocument], so a rejection does not reach the handler. *)
Definition onDidChangeContent (document : TextDocument.t) (s : Server) : Server :=
  snd (validateTextDocument document s).

(** [documents.all().forEach(validateTextDocument)] *)
Definition revalidate_all (docs : list TextDocument.t) (s : Server) : Server :=
  fold_left (fun s d => snd (validateTextDocument d s)) docs s.

(** [connection.onDidChangeConfiguration]; [settings] is
    [change.settings]. Without the configuration capability the handler
    reads [change.settings.languageServerExample], which throws on [null]
    and [undefined] before anything is assigned or revalidated. *)
Definition onDidChangeConfiguration (settings : ChangeSettings) : M unit :=
  hasCapability <- gets hasConfigurationCapability ;;
  (if hasCapability : bool then modify (with_documentSettings JsMap.empty)
   else
     match settings with
     | SettingsNullish => call (Throw TypeError)
     | SettingsObject languageServerExample =>
         modify (with_globalSettings
                   (match languageServerExample with
                    | Some g => g
                    | None => defaultSettings
                    end))
     end) ;;
  all <- gets (fun s => JsMap.values (documents s)) ;;
  modify (revalidate_all all).

(** [getDocumentSettings] is defined in server.ts and no handler calls it;
    it is modelled with the settings cache below. *)

(** [documents.onDidClose] *)
Definition onDidClose (uri : string) (s : Server) : Server :=
  with_documentSettings (JsMap.delete uri (documentSettings s)) s.

(** [connection.onCompletion] *)
Definition onCompletion (_textDocumentPosition : TextDocumentPositionParams)
    (s : Server) : list CompletionItem.t :=
  completionItems s.

(** [connection.onInitialize], for the capability the model keeps:
    [hasConfigurationCapability = !!capabilities.workspace?.configuration]. *)
Definition onInitialize (configuration : bool) (s : Server) : Server :=
  with_hasConfigurationCapability configuration s.

(** ** The notifications the connection dispatches, one at a time

    [documents.listen(connection)]: the document manager stores an opened
    or changed document under its uri and then fires
    [onDidChangeContent]; it drops a closed document and fires
    [onDidClose]. An error thrown by a notification handler is caught and
    logged by the connection: the state stays as the handler left it. *)
Inductive Notification :=
| Initialize (configuration : bool)
| DidOpenOrChange (document : TextDocument.t)
| DidClose (uri : string)
| DidChangeConfiguration (settings : ChangeSettings).

Definition dispatch (n : Notification) (s : Server) : Server :=
  match n with
  | Initialize configuration => onInitialize configuration s
  | DidOpenOrChange document =>
      onDidChangeContent document
        (with_documents
           (JsMap.set (TextDocument.uri document) document (documents s)) s)
  | DidClose uri =>
      onDidClose uri (with_documents (JsMap.delete uri (documents s)) s)
  | DidChangeConfiguration settings => snd (onDidChangeConfiguration settings s)
  end.

(** The states the server can be in. *)
Inductive reachable : Server -> Prop :=
| reachable_initial : reachable initial
| reachable_dispatch n s : reachable s -> reachable (dispatch n s).

(** A sequence of notifications, dispatched in order. *)
Definition run (ns : list Notification) (s : Server) : Server :=
  fold_left (fun s n => dispatch n s) ns s.

(** ** The rebuild as a function of the document alone *)

Definition isModule (style : SFCBlock) : bool :=
  Js.truthy_string_or_boolean (module style).

Definition filename_of (textDocument : TextDocument.t) : string :=
  Js.or_string (Js.pop (Js.split "/" (TextDocument.uri textDocument))) "".

(** What the language service answers for one module block. *)
Definition block_symbols (textDocument : TextDocument.t) (style : SFCBlock)
    : Result (list SymbolInformation.t) :=
  let lang := Js.or_string (lang style) "css" in
  let service := call_factory (getLanguageService lang) in
  let document :=
    TextDocument.create (TextDocument.uri textDocument) lang 0 (content style) in
  match parseStylesheet service document with
  | Ok styleSheet => findDocumentSymbols service document styleSheet
  | Throw e => Throw e
  end.

(** The keys of the mapping after the loop over [styles], started with
    the keys [ks], and whether the loop ended or threw. *)
Fixpoint scan_styles (textDocument : TextDocument.t) (styles : list SFCBlock)
    (ks : list string) : Result unit * list string :=
  match styles with
  | [] => (Ok tt, ks)
  | style :: rest =>
      if isModule style then
        match block_symbols textDocument style with
        | Ok syms => scan_styles textDocument rest (fold_left add_symbol syms ks)
        | Throw e => (Throw e, ks)
        end
      else scan_styles textDocument rest ks
  end.

Definition rebuild (textDocument : TextDocument.t) : Result unit * list string :=
  match parse libs (TextDocument.getText textDocument) (filename_of textDocument) with
  | Ok d => scan_styles textDocument (styles d) []
  | Throw e => (Throw e, [])
  end.

(** The symbols of the module blocks of [styles], block after block,
    when every service call returns. *)
Fixpoint module_symbols (textDocument : TextDocument.t) (styles : list SFCBlock)
    : Result (list SymbolInformation.t) :=
  match styles with
  | [] => Ok []
  | style :: rest =>
      if isModule style then
        match block_symbols textDocument style with
        | Ok syms =>
            match module_symbols textDocument rest with
            | Ok more => Ok (syms ++ more)%list
            | Throw e => Throw e
            end
        | Throw e => Throw e
        end
      else module_symbols textDocument rest
  end.

End Server.

(** ** The properties as the specification words them *)

Module Spec.

(** "The first such symbol is kept and every later duplicate is
    discarded": keep the head, drop its later copies, go on. *)
Fixpoint first_occurrences (l : list string) : list string :=
  match l with
  | [] => []
  | x :: r => x :: filter (fun y => negb (y =? x)) (first_occurrences r)
  end.

(** "Its kind is class and its raw name begins with the character '.'". *)
Definition class_with_dot (sym : SymbolInformation.t) : Prop :=
  SymbolInformation.kind sym = SymbolKind.Class /\
  exists rest, SymbolInformation.name sym = String "." rest.

(** "The raw name with the leading '.' removed". *)
Definition strip_dot (raw : string) : string :=
  match raw with
  | String _ rest => rest
  | EmptyString => EmptyString
  end.

End Spec.

(** ** Stand-ins for the libraries, to run the server on examples *)

Module Demo.

Definition class_symbol (name : string) : SymbolInformation.t :=
  {| SymbolInformation.name := name; SymbolInformation.kind := SymbolKind.Class |}.

(** A service that reads a block as selectors separated by spaces, reports
    each as a class symbol, then the symbols [extra] of its dialect; on the
    content ["!"] it throws. *)
Definition service (extra : list string) : LanguageService (list string) :=
  {| parseStylesheet := fun document =>
       if TextDocument.getText document =? "!" then Throw "syntax error"
       else Ok (Js.split " " (TextDocument.getText document));
     findDocumentSymbols := fun _ styleSheet =>
       Ok (map class_symbol (styleSheet ++ extra)%list) |}.

(** One style block per [;]-separated part of the source: [M...] is
    [<style module>], [S...] is [<style module lang="scss">], [L...] is
    [<style module lang="less">], anything else is a plain [<style>]. *)
Definition block (part : string) : SFCBlock :=
  match part with
  | String "M" r =>
      {| content := r; lang := None; module := Some (Js.Boolean true) |}
  | String "S" r =>
      {| content := r; lang := Some "scss"; module := Some (Js.Boolean true) |}
  | String "L" r =>
      {| content := r; lang := Some "less"; module := Some (Js.Boolean true) |}
  | String _ r =>
      {| content := r; lang := None; module := None |}
  | EmptyString =>
      {| content := ""; lang := None; module := None |}
  end.

(** The source ["!"] does not parse; the empty source has no style block. *)
Definition sfc_parse (source filename : string) : Result SFCDescriptor :=
  if source =? "!" then Throw "SFC parse error"
  else if source =? "" then Ok {| styles := [] |}
  else Ok {| styles := map block (Js.split ";" source) |}.

Definition libs : Libraries :=
  {| Stylesheet := list string;
     parse := sfc_parse;
     cssService := service [];
     scssService := service [".scss-nested"];
     lessService := service [".less-mixin"] |}.

Definition vue (source : string) : TextDocument.t :=
  TextDocument.create "file:///src/App.vue" "vue" 1 source.

Definition at_position (l c : Z) : TextDocumentPositionParams :=
  {| textDocument := "file:///src/App.vue";
     position := {| line := l; character := c |} |}.

End Demo.

(** ** Predicates on notifications and on the published cache *)

Definition is_change (n : Notification) : bool :=
  match n with
  | DidOpenOrChange _ => true
  | _ => false
  end.

(** The list and the mapping both hold exactly the keys [ks]. *)
Definition cache_holds (s : Server) (ks : list string) : Prop :=
  completionItems s = map item_of ks /\ compItemMap s = entries ks.

Definition good_keys (ks : list string) : Prop :=
  NoDup ks /\ Forall nonempty ks.

(** ** server.ts: the settings cache and the resolve handler *)

(** [getDocumentSettings]. A [Thenable<Settings>] is read as the settings
    it resolves to; [getConfiguration] is what the client answers to
    [connection.workspace.getConfiguration({ scopeUri, section })]. The
    third component lists the scope uris of the requests sent to the
    client by the call. *)
Definition getDocumentSettings (getConfiguration : string -> Settings)
    (resource : string) (s : Server) : Settings * Server * list string :=
  if negb (hasConfigurationCapability s) then (globalSettings s, s, [])
  else
    match JsMap.get resource (documentSettings s) with
    | Some result => (result, s, [])
    | None =>
        let result := getConfiguration resource in
        (result,
         with_documentSettings (JsMap.set resource result (documentSettings s)) s,
         [resource])
    end.

(** A completion item as a resolve request carries it: the fields the
    server wrote and the optional [detail] and [documentation]. *)
Record ResolveItem := mkResolveItem {
  item : CompletionItem.t;
  detail : option string;
  documentation : option string
}.

(** [connection.onCompletionResolve] *)
Definition onCompletionResolve (it : ResolveItem) : ResolveItem :=
  if CompletionItem.label (item it) =? "label" then
    {| item := item it;
       detail := Some "Hello CSS";
       documentation := Some "Hello CSS documentation" |}
  else if CompletionItem.label (item it) =? "world" then
    {| item := item it;
       detail := Some "World CSS";
       documentation := Some "World CSS documentation" |}
  else it.

(** The libraries with other SCSS and LESS services. *)
Definition with_scss_less (libs : Libraries)
    (scss less : LanguageService (Stylesheet libs)) : Libraries :=
  {| Stylesheet := Stylesheet libs;
     parse := parse libs;
     cssService := cssService libs;
     scssService := scss;
     lessService := less |}.

(** The language tag [getLanguageService] receives for a block. *)
Definition lang_of (style : SFCBlock) : string :=
  Js.or_string (lang style) "css".

(** * Proofs *)

(** ** The primitives and the server on examples *)

Example split_uri :
  Js.split "/" "file:///src/App.vue" = ["file:"; ""; ""; "src"; "App.vue"].
Proof. reflexivity. Qed.

Example filename_of_uri :
  filename_of (Demo.vue "") = "App.vue" /\
  filename_of (TextDocument.create "file:///src/" "vue" 1 "") = "" /\
  filename_of (TextDocument.create "App.vue" "vue" 1 "") = "App.vue".
Proof. repeat split. Qed.

Example slice_examples :
  Js.slice 0 1 ".foo" = "." /\ Js.slice_from 1 ".foo" = "foo" /\
  Js.slice 0 1 "#bar" = "#" /\ Js.slice 0 1 "" = "" /\ Js.slice_from 1 "." = "".
Proof. repeat split. Qed.

Example map_keeps_insertion_order :
  JsMap.values (JsMap.set "a" 3 (JsMap.set "b" 2 (JsMap.set "a" 1 JsMap.empty))) = [3; 2].
Proof. reflexivity. Qed.

Example two_classes :
  completionItems
    (onDidChangeContent Demo.libs (Demo.vue "M.foo .foo-bar") initial) =
  [item_of "foo"; item_of "foo-bar"].
Proof. reflexivity. Qed.

Example later_block_fails :
  validateTextDocument Demo.libs (Demo.vue "M.foo;M!;M.b") initial =
  (Throw "syntax error", publish ["foo"] initial).
Proof. reflexivity. Qed.

(** ** Strings *)

Lemma substring_all (s : string) (n : nat) :
  String.length s <= n -> String.substring 0 n s = s.
Proof.
  revert n. induction s as [|c s IH]; intros [|n] H; simpl in *; try reflexivity.
  - lia.
  - rewrite IH by lia. reflexivity.
Qed.

Lemma slice_from_1 (c : ascii) (rest : string) :
  Js.slice_from 1 (String c rest) = rest.
Proof.
  unfold Js.slice_from. cbn [String.length String.substring].
  apply substring_all. lia.
Qed.

Lemma slice_0_1 (c : ascii) (rest : string) :
  Js.slice 0 1 (String c rest) = String c "".
Proof.
  unfold Js.slice. cbn. destruct rest; reflexivity.
Qed.

Lemma className_of_Some (sym : SymbolInformation.t) (c : string) :
  className_of sym = Some c <-> SymbolInformation.name sym = String "." c.
Proof.
  unfold className_of. destruct sym as [nm k]. cbn [SymbolInformation.name].
  destruct nm as [|a rest].
  - cbn. split; discriminate.
  - rewrite slice_0_1, slice_from_1.
    destruct (String.eqb_spec (String a "") ".") as [E|E].
    + inversion E; subst. split; intros H; inversion H; reflexivity.
    + split; intros H; [discriminate|].
      inversion H; subst. contradiction E. reflexivity.
Qed.

Lemma className_of_None (sym : SymbolInformation.t) :
  className_of sym = None <->
  forall rest, SymbolInformation.name sym <> String "." rest.
Proof.
  split.
  - intros H rest E. apply className_of_Some in E. congruence.
  - intros H. destruct (className_of sym) as [c|] eqn:E; [|reflexivity].
    apply className_of_Some in E. destruct (H _ E).
Qed.

Lemma isClassSymbol_true (sym : SymbolInformation.t) :
  isClassSymbol sym = true <-> SymbolInformation.kind sym = SymbolKind.Class.
Proof.
  unfold isClassSymbol. destruct (SymbolInformation.kind sym); cbn;
    split; intros H; try reflexivity; discriminate.
Qed.

Lemma truthy_string_true (s : string) :
  Js.truthy_string s = true <-> s <> "".
Proof.
  unfold Js.truthy_string. destruct (String.eqb_spec s ""); cbn; split;
    intros; try congruence; try discriminate.
Qed.

(** What the guard lets through. *)
Lemma bare_name_Some (sym : SymbolInformation.t) (c : string) :
  bare_name sym = Some c <->
  SymbolInformation.kind sym = SymbolKind.Class /\
  SymbolInformation.name sym = String "." c /\ c <> "".
Proof.
  unfold bare_name, accepted. rewrite <- className_of_Some, <- isClassSymbol_true.
  destruct (isClassSymbol sym); cbn.
  - destruct (className_of sym) as [c'|]; cbn.
    + rewrite negb_involutive.
      destruct (Js.truthy_string c') eqn:T.
      * apply truthy_string_true in T. split.
        -- intros H; inversion H; subst. auto.
        -- intros (_ & H & _). exact H.
      * split; [discriminate|]. intros (_ & H & N). inversion H; subst.
        apply truthy_string_true in N. congruence.
    + split; [discriminate|]. intros (_ & H & _). discriminate.
  - split; [discriminate|]. intros (H & _). discriminate.
Qed.

Lemma bare_name_accepted (sym : SymbolInformation.t) :
  accepted sym = true <-> exists c, bare_name sym = Some c.
Proof.
  unfold bare_name. destruct (accepted sym) eqn:A.
  - split; [|reflexivity]. intros _. unfold accepted in A.
    destruct (className_of sym) as [c|]; [exists c; reflexivity|].
    cbn in A. rewrite orb_true_r in A. discriminate.
  - split; [discriminate|]. intros [c H]. discriminate.
Qed.

(** ** The insertion-ordered map *)

Lemma mem_In (c : string) (ks : list string) :
  mem c ks = true <-> In c ks.
Proof.
  unfold mem. rewrite existsb_exists. split.
  - intros (x & I & E). apply String.eqb_eq in E. subst. exact I.
  - intros I. exists c. split; [exact I|apply String.eqb_refl].
Qed.

Lemma mem_false (c : string) (ks : list string) :
  mem c ks = false <-> ~ In c ks.
Proof.
  rewrite <- mem_In. destruct (mem c ks); split; intros; congruence.
Qed.

Lemma get_entries (c : string) (ks : list string) :
  JsMap.get c (entries ks) = if mem c ks then Some (item_of c) else None.
Proof.
  induction ks as [|k ks IH]; [reflexivity|].
  change (entries (k :: ks)) with ((k, item_of k) :: entries ks).
  cbn [JsMap.get mem existsb]. rewrite (String.eqb_sym c k).
  destruct (String.eqb_spec k c); subst; cbn [orb]; [reflexivity|exact IH].
Qed.

Lemma set_entries (c : string) (ks : list string) :
  mem c ks = false ->
  JsMap.set c (item_of c) (entries ks) = entries (ks ++ [c]).
Proof.
  induction ks as [|k ks IH]; intros H; [reflexivity|].
  cbn [mem existsb] in H. apply orb_false_iff in H as [H1 H2].
  change (entries (k :: ks)) with ((k, item_of k) :: entries ks).
  change ((k :: ks) ++ [c])%list with (k :: (ks ++ [c]))%list.
  change (entries (k :: ks ++ [c])) with ((k, item_of k) :: entries (ks ++ [c])).
  cbn [JsMap.set]. rewrite String.eqb_sym, H1, (IH H2). reflexivity.
Qed.

Lemma values_entries (ks : list string) :
  JsMap.values (entries ks) = map item_of ks.
Proof.
  unfold JsMap.values, entries. rewrite map_map. reflexivity.
Qed.

Lemma keys_entries (ks : list string) :
  JsMap.keys (entries ks) = ks.
Proof.
  unfold JsMap.keys, entries. rewrite map_map. cbn. apply map_id.
Qed.

Lemma label_item_of (ks : list string) :
  map CompletionItem.label (map item_of ks) = ks.
Proof.
  rewrite map_map. cbn. apply map_id.
Qed.

Lemma get_set_same {V : Type} (k : string) (v : V) (m : JsMap.t V) :
  JsMap.get k (JsMap.set k v m) = Some v.
Proof.
  induction m as [|[k' v'] m IH]; cbn.
  - rewrite String.eqb_refl. reflexivity.
  - destruct (String.eqb_spec k' k) as [E|E]; cbn.
    + subst. rewrite String.eqb_refl. reflexivity.
    + apply String.eqb_neq in E. rewrite E. exact IH.
Qed.

(** ** Keys of the mapping: no duplicate, no empty label, first wins *)

Lemma add_label_NoDup (ks : list string) (c : string) :
  NoDup ks -> NoDup (add_label ks c).
Proof.
  intros N. unfold add_label. destruct (mem c ks) eqn:E; [exact N|].
  apply mem_false in E. apply NoDup_app; [exact N|repeat constructor; intros []|].
  intros x I [<-|[]]. contradiction.
Qed.

Lemma add_symbol_NoDup (ks : list string) (sym : SymbolInformation.t) :
  NoDup ks -> NoDup (add_symbol ks sym).
Proof.
  intros N. unfold add_symbol. destruct (bare_name sym); [|exact N].
  apply add_label_NoDup, N.
Qed.

Lemma add_symbol_nonempty (ks : list string) (sym : SymbolInformation.t) :
  Forall nonempty ks -> Forall nonempty (add_symbol ks sym).
Proof.
  intros F. unfold add_symbol. destruct (bare_name sym) as [c|] eqn:B; [|exact F].
  apply bare_name_Some in B as (_ & _ & N).
  unfold add_label. destruct (mem c ks); [exact F|].
  apply Forall_app. split; [exact F|]. constructor; [exact N|constructor].
Qed.

Lemma fold_add_symbol_inv (P : list string -> Prop) :
  (forall ks sym, P ks -> P (add_symbol ks sym)) ->
  forall syms ks, P ks -> P (fold_left add_symbol syms ks).
Proof.
  intros step syms. induction syms as [|sym syms IH]; intros ks H; cbn; auto.
Qed.

Lemma fold_add_symbol_labels (syms : list SymbolInformation.t) (ks : list string) :
  fold_left add_symbol syms ks = fold_left add_label (accepted_labels syms) ks.
Proof.
  revert ks. induction syms as [|sym syms IH]; intros ks; [reflexivity|].
  cbn [fold_left accepted_labels flat_map]. rewrite fold_left_app, IH.
  unfold add_symbol. destruct (bare_name sym); reflexivity.
Qed.

Lemma filter_seen_twice (x : string) (ks l : list string) :
  mem x ks = true ->
  filter (fun c => negb (mem c ks)) (filter (fun y => negb (y =? x)) l) =
  filter (fun c => negb (mem c ks)) l.
Proof.
  intros H. induction l as [|y l IH]; [reflexivity|].
  cbn [filter]. destruct (String.eqb_spec y x) as [->|N]; cbn [negb filter].
  - rewrite H. cbn [negb]. exact IH.
  - rewrite IH. reflexivity.
Qed.

Lemma filter_seen_snoc (x : string) (ks l : list string) :
  filter (fun c => negb (mem c (ks ++ [x]))) l =
  filter (fun c => negb (mem c ks)) (filter (fun y => negb (y =? x)) l).
Proof.
  induction l as [|y l IH]; [reflexivity|].
  cbn [filter]. unfold mem at 1. rewrite existsb_app. cbn [existsb].
  rewrite orb_false_r. fold (mem y ks).
  destruct (String.eqb_spec y x) as [->|N]; cbn [negb filter].
  - rewrite orb_true_r. cbn [negb]. exact IH.
  - rewrite orb_false_r, IH. reflexivity.
Qed.

(** Inserting when absent, label after label, keeps the first occurrence
    of every label that was not yet a key. *)
Lemma fold_add_label_first (l ks : list string) :
  fold_left add_label l ks =
  (ks ++ filter (fun c => negb (mem c ks)) (Spec.first_occurrences l))%list.
Proof.
  revert ks. induction l as [|x l IH]; intros ks.
  - cbn. rewrite app_nil_r. reflexivity.
  - cbn [fold_left Spec.first_occurrences filter]. rewrite IH. unfold add_label.
    destruct (mem x ks) eqn:E; cbn [negb].
    + rewrite filter_seen_twice by exact E. reflexivity.
    + rewrite filter_seen_snoc, <- app_assoc. reflexivity.
Qed.

Lemma fold_add_symbol_first (syms : list SymbolInformation.t) :
  fold_left add_symbol syms [] = Spec.first_occurrences (accepted_labels syms).
Proof.
  rewrite fold_add_symbol_labels, fold_add_label_first. cbn [app].
  apply forallb_filter_id. apply forallb_forall. reflexivity.
Qed.

Lemma first_occurrences_In (l : list string) (c : string) :
  In c (Spec.first_occurrences l) <-> In c l.
Proof.
  induction l as [|x l IH]; [reflexivity|].
  cbn [Spec.first_occurrences In]. rewrite filter_In, IH.
  destruct (String.eqb_spec c x) as [->|N]; cbn [negb].
  - split; auto.
  - split.
    + intros [H|[H _]]; auto.
    + intros [H|H]; [congruence|auto].
Qed.

(** ** The symbol loop *)

Lemma with_compItemMap_same (s : Server) :
  with_compItemMap (compItemMap s) s = s.
Proof. destruct s; reflexivity. Qed.

(** One symbol, on any state: the pure reading of the loop body. *)
Lemma symbol_step_run (sym : SymbolInformation.t) (s : Server) :
  symbol_step sym s =
  (Ok tt,
   match bare_name sym with
   | Some c =>
       match JsMap.get c (compItemMap s) with
       | Some _ => s
       | None => with_compItemMap (JsMap.set c (item_of c) (compItemMap s)) s
       end
   | None => s
   end).
Proof.
  unfold symbol_step, bare_name, accepted.
  destruct (negb (isClassSymbol sym) || negb (Js.truthy_opt_string (className_of sym)))
    eqn:G; cbn [negb].
  - reflexivity.
  - destruct (className_of sym) as [c|]; [|reflexivity].
    unfold bind, gets, modify, ret.
    destruct (JsMap.get c (compItemMap s)); reflexivity.
Qed.

Lemma symbol_step_entries (sym : SymbolInformation.t) (ks : list string) (s : Server) :
  symbol_step sym (with_compItemMap (entries ks) s) =
  (Ok tt, with_compItemMap (entries (add_symbol ks sym)) s).
Proof.
  rewrite symbol_step_run. unfold add_symbol.
  destruct (bare_name sym) as [c|]; [|reflexivity].
  cbn [compItemMap with_compItemMap]. rewrite get_entries. unfold add_label.
  destruct (mem c ks) eqn:E; [reflexivity|].
  rewrite set_entries by exact E. reflexivity.
Qed.

Lemma for_each_symbols (syms : list SymbolInformation.t) (ks : list string) (s : Server) :
  for_each syms symbol_step (with_compItemMap (entries ks) s) =
  (Ok tt, with_compItemMap (entries (fold_left add_symbol syms ks)) s).
Proof.
  revert ks. induction syms as [|sym syms IH]; intros ks; [reflexivity|].
  cbn [for_each fold_left]. unfold bind at 1.
  rewrite symbol_step_entries. apply IH.
Qed.

Section Rebuild.

Variable libs : Libraries.

(** ** The loop over the style blocks *)

Lemma style_step_non_module (textDocument : TextDocument.t) (style : SFCBlock)
    (s : Server) :
  isModule style = false -> style_step libs textDocument style s = (Ok tt, s).
Proof.
  unfold style_step, isModule. intros ->. reflexivity.
Qed.

Lemma style_step_module (textDocument : TextDocument.t) (style : SFCBlock)
    (ks : list string) (s : Server) :
  isModule style = true ->
  style_step libs textDocument style (publish ks s) =
  match block_symbols libs textDocument style with
  | Ok syms => (Ok tt, publish (fold_left add_symbol syms ks) s)
  | Throw e => (Throw e, publish ks s)
  end.
Proof.
  unfold style_step, isModule, block_symbols. intros ->. cbn [negb].
  unfold bind at 1, call at 1.
  destruct (parseStylesheet _ _) as [styleSheet|e]; [|reflexivity].
  unfold bind at 1, call at 1.
  destruct (findDocumentSymbols _ _ _) as [syms|e]; [|reflexivity].
  unfold bind at 1.
  change (publish ks s)
    with (with_compItemMap (entries ks) (with_completionItems (map item_of ks) s)).
  rewrite for_each_symbols. unfold modify, publish.
  cbn [compItemMap with_compItemMap]. rewrite values_entries. reflexivity.
Qed.

Lemma for_each_styles (textDocument : TextDocument.t) (styles : list SFCBlock)
    (ks : list string) (s : Server) :
  for_each styles (style_step libs textDocument) (publish ks s) =
  (fst (scan_styles libs textDocument styles ks),
   publish (snd (scan_styles libs textDocument styles ks)) s).
Proof.
  revert ks. induction styles as [|style rest IH]; intros ks; [reflexivity|].
  cbn [for_each scan_styles]. unfold bind at 1.
  destruct (isModule style) eqn:E.
  - rewrite style_step_module by exact E.
    destruct (block_symbols libs textDocument style) as [syms|e]; [apply IH|reflexivity].
  - rewrite style_step_non_module by exact E. apply IH.
Qed.

(** The rebuild leaves the state of [publish] on the keys it has
    collected, whether it returns or throws; nothing else changes. *)
Lemma validateTextDocument_rebuild (textDocument : TextDocument.t) (s : Server) :
  validateTextDocument libs textDocument s =
  (fst (rebuild libs textDocument), publish (snd (rebuild libs textDocument)) s).
Proof.
  unfold validateTextDocument, rebuild, new_VueParser, filename_of.
  unfold bind at 1, modify at 1. unfold bind at 1, modify at 1.
  unfold bind at 1, call at 1.
  destruct (parse libs _ _) as [d|e]; [|reflexivity].
  unfold getStyles, Js.truthy_array. cbn [descriptor].
  change (with_completionItems [] (with_compItemMap JsMap.empty s)) with (publish [] s).
  apply for_each_styles.
Qed.

(** ** The outcome of the loop, by the symbols of the module blocks *)

Lemma scan_styles_returns (textDocument : TextDocument.t) (styles : list SFCBlock)
    (ks : list string) (syms : list SymbolInformation.t) :
  module_symbols libs textDocument styles = Ok syms ->
  scan_styles libs textDocument styles ks = (Ok tt, fold_left add_symbol syms ks).
Proof.
  revert ks syms. induction styles as [|style rest IH]; intros ks syms; cbn.
  - intros H; inversion H; reflexivity.
  - destruct (isModule style); [|apply IH].
    destruct (block_symbols libs textDocument style) as [syms0|e]; [|discriminate].
    destruct (module_symbols libs textDocument rest) as [more|e] eqn:R; [|discriminate].
    intros H; inversion H; subst. rewrite fold_left_app. apply IH. reflexivity.
Qed.

Lemma scan_styles_throws (textDocument : TextDocument.t) (styles : list SFCBlock)
    (ks ks' : list string) (e : Exn) :
  scan_styles libs textDocument styles ks = (Throw e, ks') ->
  exists pre style post syms,
    styles = (pre ++ style :: post)%list /\
    isModule style = true /\
    block_symbols libs textDocument style = Throw e /\
    module_symbols libs textDocument pre = Ok syms /\
    ks' = fold_left add_symbol syms ks.
Proof.
  revert ks. induction styles as [|style rest IH]; intros ks; cbn.
  - discriminate.
  - destruct (isModule style) eqn:E.
    + destruct (block_symbols libs textDocument style) as [syms0|e0] eqn:B.
      * intros H. destruct (IH _ H) as (pre & b & post & syms & -> & Hb & Hthrow & Hpre & ->).
        exists (style :: pre), b, post, (syms0 ++ syms)%list.
        cbn. rewrite E, B, Hpre, fold_left_app. auto.
      * intros H; inversion H; subst.
        exists [], style, rest, []. cbn. auto.
    + intros H. destruct (IH _ H) as (pre & b & post & syms & -> & Hb & Hthrow & Hpre & ->).
      exists (style :: pre), b, post, syms. cbn. rewrite E, Hpre. auto.
Qed.

Lemma scan_styles_inv (P : list string -> Prop) (textDocument : TextDocument.t) :
  (forall ks sym, P ks -> P (add_symbol ks sym)) ->
  forall styles ks, P ks -> P (snd (scan_styles libs textDocument styles ks)).
Proof.
  intros step styles. induction styles as [|style rest IH]; intros ks H; cbn; [exact H|].
  destruct (isModule style); [|apply IH, H].
  destruct (block_symbols libs textDocument style) as [syms|e]; [|exact H].
  apply IH, fold_add_symbol_inv; assumption.
Qed.

Lemma rebuild_inv (P : list string -> Prop) (textDocument : TextDocument.t) :
  P [] ->
  (forall ks sym, P ks -> P (add_symbol ks sym)) ->
  P (snd (rebuild libs textDocument)).
Proof.
  intros H0 step. unfold rebuild.
  destruct (parse libs _ _) as [d|e]; [|exact H0].
  apply scan_styles_inv; assumption.
Qed.

End Rebuild.

(** ** Every reachable state publishes well-formed keys *)

Lemma good_keys_nil : good_keys [].
Proof. split; constructor. Qed.

Lemma good_keys_add (ks : list string) (sym : SymbolInformation.t) :
  good_keys ks -> good_keys (add_symbol ks sym).
Proof.
  intros [N F]. split; [apply add_symbol_NoDup, N|apply add_symbol_nonempty, F].
Qed.

Lemma rebuild_good_keys (libs : Libraries) (textDocument : TextDocument.t) :
  good_keys (snd (rebuild libs textDocument)).
Proof. apply rebuild_inv; [exact good_keys_nil|exact good_keys_add]. Qed.

Lemma cache_holds_publish (ks : list string) (s : Server) :
  cache_holds (publish ks s) ks.
Proof. split; reflexivity. Qed.

Lemma onDidChangeContent_publish (libs : Libraries) (textDocument : TextDocument.t)
    (s : Server) :
  onDidChangeContent libs textDocument s = publish (snd (rebuild libs textDocument)) s.
Proof.
  unfold onDidChangeContent. rewrite validateTextDocument_rebuild. reflexivity.
Qed.

Lemma revalidate_all_cache (libs : Libraries) (docs : list TextDocument.t) (s : Server) :
  (exists ks, cache_holds s ks /\ good_keys ks) ->
  exists ks, cache_holds (revalidate_all libs docs s) ks /\ good_keys ks.
Proof.
  revert s. induction docs as [|d docs IH]; intros s H; [exact H|].
  cbn [revalidate_all fold_left]. apply IH.
  rewrite validateTextDocument_rebuild. cbn [snd].
  exists (snd (rebuild libs d)). split; [apply cache_holds_publish|apply rebuild_good_keys].
Qed.

(** The three ways through the configuration handler. *)
Lemma onDidChangeConfiguration_run (libs : Libraries) (settings : ChangeSettings)
    (s : Server) :
  onDidChangeConfiguration libs settings s =
  if hasConfigurationCapability s then
    (Ok tt,
     revalidate_all libs (JsMap.values (documents s))
       (with_documentSettings JsMap.empty s))
  else
    match settings with
    | SettingsNullish => (Throw TypeError, s)
    | SettingsObject languageServerExample =>
        (Ok tt,
         revalidate_all libs (JsMap.values (documents s))
           (with_globalSettings
              (match languageServerExample with
               | Some g => g
               | None => defaultSettings
               end) s))
    end.
Proof.
  unfold onDidChangeConfiguration, bind, gets, modify, call.
  destruct (hasConfigurationCapability s); [reflexivity|].
  destruct settings; reflexivity.
Qed.

Lemma reachable_cache (libs : Libraries) (s : Server) :
  reachable libs s -> exists ks, cache_holds s ks /\ good_keys ks.
Proof.
  induction 1 as [|n s R (ks & [Hl Hm] & G)].
  - exists []. split; [split; reflexivity|exact good_keys_nil].
  - destruct n as [configuration|document|uri|settings]; cbn [dispatch].
    + exists ks. split; [split; assumption|exact G].
    + rewrite onDidChangeContent_publish.
      exists (snd (rebuild libs document)).
      split; [apply cache_holds_publish|apply rebuild_good_keys].
    + exists ks. split; [split; assumption|exact G].
    + rewrite onDidChangeConfiguration_run.
      destruct (hasConfigurationCapability s); [|destruct settings as [|o]];
        cbn [snd]; try apply revalidate_all_cache;
        exists ks; (split; [split; assumption|exact G]).
Qed.

(** The settings and the open documents are carried through a rebuild
    untouched, and the rebuilt cache does not look at them. *)
Lemma revalidate_all_settings (libs : Libraries) (docs : list TextDocument.t)
    (g : Settings) (ds : JsMap.t Settings) (s : Server) :
  revalidate_all libs docs (with_globalSettings g (with_documentSettings ds s)) =
  with_globalSettings g (with_documentSettings ds (revalidate_all libs docs s)).
Proof.
  revert s. induction docs as [|d docs IH]; intros s; [reflexivity|].
  cbn [revalidate_all fold_left].
  rewrite !validateTextDocument_rebuild. cbn [snd].
  change (publish (snd (rebuild libs d)) (with_globalSettings g (with_documentSettings ds s)))
    with (with_globalSettings g (with_documentSettings ds (publish (snd (rebuild libs d)) s))).
  apply IH.
Qed.

Lemma revalidate_all_completionItems (libs : Libraries) (docs : list TextDocument.t)
    (g : Settings) (ds : JsMap.t Settings) (s : Server) :
  completionItems
    (revalidate_all libs docs (with_globalSettings g (with_documentSettings ds s))) =
  completionItems (revalidate_all libs docs s).
Proof. rewrite revalidate_all_settings. reflexivity. Qed.

Lemma getLanguageService_css (lang : string) :
  lang <> ".less" -> lang <> ".scss" ->
  getLanguageService lang = getCSSLanguageService.
Proof.
  intros L S. unfold getLanguageService.
  apply String.eqb_neq in L, S. rewrite L, S. reflexivity.
Qed.

(** Without a change of content the server publishes nothing. *)
Lemma run_without_change (libs : Libraries) (ns : list Notification) (s : Server) :
  completionItems s = [] -> documents s = [] ->
  completionItems (run libs (filter (fun n => negb (is_change n)) ns) s) = [].
Proof.
  revert s. induction ns as [|n ns IH]; intros s Hc Hd; [exact Hc|].
  cbn [filter]. destruct n as [configuration|document|uri|settings]; cbn [is_change negb].
  - cbn [run fold_left dispatch]. apply IH; assumption.
  - apply IH; assumption.
  - cbn [run fold_left dispatch]. apply IH; cbn; [assumption|].
    rewrite Hd. reflexivity.
  - cbn [run fold_left dispatch]. rewrite onDidChangeConfiguration_run.
    apply IH;
      (destruct (hasConfigurationCapability s); [|destruct settings as [|o]];
       cbn [snd]; rewrite ?Hd; cbn; rewrite ?Hd; first [assumption|reflexivity]).
Qed.

Lemma pop_Some {A : Type} (xs : list A) : xs <> [] -> exists x, Js.pop xs = Some x.
Proof.
  induction xs as [|y r IH]; intros N; [contradiction N; reflexivity|].
  destruct r as [|z r]; [exists y; reflexivity|].
  apply IH. discriminate.
Qed.

Lemma revalidate_all_last (libs : Libraries) (docs : list TextDocument.t) (s : Server) :
  revalidate_all libs docs s =
  match Js.pop docs with
  | Some d => publish (snd (rebuild libs d)) s
  | None => s
  end.
Proof.
  revert s. induction docs as [|d r IH]; intros s; [reflexivity|].
  cbn [revalidate_all fold_left]. rewrite validateTextDocument_rebuild. cbn [snd].
  fold (revalidate_all libs r (publish (snd (rebuild libs d)) s)). rewrite IH.
  destruct r as [|d' r]; [reflexivity|].
  destruct (pop_Some (d' :: r)) as [x Hx]; [discriminate|].
  change (Js.pop (d :: d' :: r)) with (Js.pop (d' :: r)). rewrite Hx. reflexivity.
Qed.

Lemma revalidate_all_list (libs : Libraries) (docs : list TextDocument.t) (s : Server) :
  completionItems (revalidate_all libs docs s) =
  match Js.pop docs with
  | Some d => map item_of (snd (rebuild libs d))
  | None => completionItems s
  end.
Proof.
  rewrite revalidate_all_last. destruct (Js.pop docs); reflexivity.
Qed.

(** A failing module block ends the loop with the keys of the blocks
    before it. *)
Lemma scan_styles_stops (libs : Libraries) (textDocument : TextDocument.t)
    (pre post : list SFCBlock) (style : SFCBlock)
    (syms : list SymbolInformation.t) (ks : list string) (e : Exn) :
  module_symbols libs textDocument pre = Ok syms ->
  isModule style = true ->
  block_symbols libs textDocument style = Throw e ->
  scan_styles libs textDocument (pre ++ style :: post) ks =
  (Throw e, fold_left add_symbol syms ks).
Proof.
  intros Hpre Hm Hb. revert ks syms Hpre.
  induction pre as [|b pre IH]; intros ks syms Hpre; cbn in Hpre |- *.
  - inversion Hpre; subst. rewrite Hm, Hb. reflexivity.
  - destruct (isModule b); [|apply IH, Hpre].
    destruct (block_symbols libs textDocument b) as [syms0|e0]; [|discriminate].
    destruct (module_symbols libs textDocument pre) as [more|e0]; [|discriminate].
    inversion Hpre; subst. rewrite fold_left_app. apply IH. reflexivity.
Qed.

Lemma block_symbols_throws (libs : Libraries) (textDocument : TextDocument.t)
    (style : SFCBlock) (e : Exn) :
  block_symbols libs textDocument style = Throw e <->
  (parseStylesheet (call_factory libs (getLanguageService (lang_of style)))
     (TextDocument.create (TextDocument.uri textDocument) (lang_of style) 0
        (content style)) = Throw e \/
   exists styleSheet,
     parseStylesheet (call_factory libs (getLanguageService (lang_of style)))
       (TextDocument.create (TextDocument.uri textDocument) (lang_of style) 0
          (content style)) = Ok styleSheet /\
     findDocumentSymbols (call_factory libs (getLanguageService (lang_of style)))
       (TextDocument.create (TextDocument.uri textDocument) (lang_of style) 0
          (content style)) styleSheet = Throw e).
Proof.
  unfold block_symbols, lang_of.
  destruct (parseStylesheet _ _) as [styleSheet|e0].
  - split.
    + intros H. right. exists styleSheet. split; [reflexivity|exact H].
    + intros [H|(sh & H1 & H2)]; [discriminate|]. inversion H1; subst. exact H2.
  - split.
    + intros H. left. inversion H; reflexivity.
    + intros [H|(sh & H1 & _)]; [inversion H; reflexivity|discriminate].
Qed.


(** * The claims *)

(** C1 (the code departs from the claim). [validateTextDocument] hands
    the bare language tag of a block to [getLanguageService], whose cases
    are the dotted strings ['.less'] and ['.scss']: the tags [scss] and
    [less] fall to the default, so a [<style module lang="scss">] block
    and a [<style module lang="less">] block are parsed by the plain CSS
    service. Only the tags ['.scss'] and ['.less'] select the other two
    services. *)
Theorem C1_scss_block_parsed_by_css_service :
  getLanguageService "scss" = getCSSLanguageService /\
  getLanguageService "less" = getCSSLanguageService /\
  getLanguageService ".scss" = getSCSSLanguageService /\
  getLanguageService ".less" = getLESSLanguageService /\
  (forall libs textDocument c m,
     block_symbols libs textDocument
       {| content := c; lang := Some "scss"; module := m |} =
     let document :=
       TextDocument.create (TextDocument.uri textDocument) "scss" 0 c in
     match parseStylesheet (cssService libs) document with
     | Ok styleSheet => findDocumentSymbols (cssService libs) document styleSheet
     | Throw e => Throw e
     end) /\
  completionItems
    (onDidChangeContent Demo.libs (Demo.vue "S.a") initial) = [item_of "a"].
Proof.
  repeat split; reflexivity.
Qed.

(** C2, as the claim words it, fails: a class symbol named ["."] begins
    with ['.'] and is not admitted. *)
Lemma C2_counterexample :
  ~ (forall sym, accepted sym = true <-> Spec.class_with_dot sym).
Proof.
  intros H.
  assert (A : accepted (Demo.class_symbol ".") = true).
  { apply H. split; [reflexivity|]. exists "". reflexivity. }
  discriminate A.
Qed.

(** C2 (amended). A symbol is admitted into the mapping if and only if its
    kind is class and its raw name is ['.'] followed by at least one more
    character. The loop body then stores, under the raw name without its
    leading ['.'], an item labelled with that bare name, unless the key is
    already there; a symbol that is not admitted leaves the state as it
    was. In particular a symbol whose name begins with ['#'] changes
    nothing. *)
Theorem C2_accepted_iff_class_dot_nonempty (sym : SymbolInformation.t) (s : Server) :
  (accepted sym = true <->
   SymbolInformation.kind sym = SymbolKind.Class /\
   exists c rest, SymbolInformation.name sym = String "." (String c rest)) /\
  symbol_step sym s =
    (Ok tt,
     if accepted sym then
       let bare := Spec.strip_dot (SymbolInformation.name sym) in
       match JsMap.get bare (compItemMap s) with
       | Some _ => s
       | None => with_compItemMap (JsMap.set bare (item_of bare) (compItemMap s)) s
       end
     else s) /\
  (forall rest k,
     accepted {| SymbolInformation.name := String "#" rest;
                 SymbolInformation.kind := k |} = false /\
     symbol_step {| SymbolInformation.name := String "#" rest;
                    SymbolInformation.kind := k |} s = (Ok tt, s)).
Proof.
  split; [|split].
  - rewrite bare_name_accepted. split.
    + intros [c B]. apply bare_name_Some in B as (K & N & E).
      split; [exact K|]. destruct c as [|a rest]; [contradiction E; reflexivity|].
      exists a, rest. exact N.
    + intros (K & a & rest & N). exists (String a rest).
      apply bare_name_Some. repeat split; [exact K|exact N|discriminate].
  - rewrite symbol_step_run. destruct (bare_name sym) as [c|] eqn:B.
    + assert (A : accepted sym = true) by (apply bare_name_accepted; eauto).
      rewrite A. apply bare_name_Some in B as (_ & N & _). rewrite N. reflexivity.
    + destruct (accepted sym) eqn:A; [|reflexivity].
      apply bare_name_accepted in A as [c A]. congruence.
  - intros rest k.
    assert (A : accepted {| SymbolInformation.name := String "#" rest;
                            SymbolInformation.kind := k |} = false).
    { unfold accepted, className_of. cbn [SymbolInformation.name].
      rewrite slice_0_1. cbn. rewrite orb_true_r. reflexivity. }
    split; [exact A|]. rewrite symbol_step_run. unfold bare_name. rewrite A.
    reflexivity.
Qed.

(** C3. After every rebuild the labels of the published list are pairwise
    distinct. When the rebuild returns, the labels are the bare
    identifiers of the accepted symbols, taken block after block and
    symbol after symbol, each kept at its first occurrence and dropped at
    every later one: one item for each distinct bare identifier. *)
Theorem C3_labels_unique_first_wins (libs : Libraries)
    (textDocument : TextDocument.t) (s : Server) :
  NoDup (map CompletionItem.label
           (completionItems (snd (validateTextDocument libs textDocument s)))) /\
  (forall d syms,
     parse libs (TextDocument.getText textDocument) (filename_of textDocument) = Ok d ->
     module_symbols libs textDocument (styles d) = Ok syms ->
     fst (validateTextDocument libs textDocument s) = Ok tt /\
     completionItems (snd (validateTextDocument libs textDocument s)) =
       map item_of (Spec.first_occurrences (accepted_labels syms)) /\
     map CompletionItem.label
       (completionItems (snd (validateTextDocument libs textDocument s))) =
       Spec.first_occurrences (accepted_labels syms) /\
     (forall c,
        In c (map CompletionItem.label
                (completionItems (snd (validateTextDocument libs textDocument s)))) <->
        In c (accepted_labels syms))).
Proof.
  rewrite validateTextDocument_rebuild. cbn [fst snd]. split.
  - unfold publish. cbn [completionItems with_completionItems].
    rewrite label_item_of. apply rebuild_good_keys.
  - intros d syms P S. unfold rebuild. rewrite P.
    rewrite (scan_styles_returns _ _ _ _ _ S). cbn [fst snd].
    unfold publish. cbn [completionItems with_completionItems].
    rewrite fold_add_symbol_first, label_item_of.
    repeat split; try reflexivity; apply first_occurrences_In.
Qed.

Lemma C3_witness :
  completionItems
    (snd (validateTextDocument Demo.libs
            (Demo.vue "M.foo .bar .foo;N.plain;M.bar .baz") initial)) =
  [item_of "foo"; item_of "bar"; item_of "baz"].
Proof.
  exact (proj1 (proj2 (proj2
    (C3_labels_unique_first_wins Demo.libs
       (Demo.vue "M.foo .bar .foo;N.plain;M.bar .baz") initial) _ _
    eq_refl eq_refl))).
Defined.

(** C4. A style block that is not a module block leaves the state as it
    was, whatever its content; the loop over the blocks is the loop over
    the module blocks alone. So when the document parses and none of its
    style blocks is a module block (no block at all included), the rebuild
    returns and the published list is empty. *)
Theorem C4_non_module_blocks_contribute_nothing (libs : Libraries)
    (textDocument : TextDocument.t) (s : Server) :
  (forall style, isModule style = false ->
     style_step libs textDocument style s = (Ok tt, s)) /\
  (forall styles,
     for_each styles (style_step libs textDocument) s =
     for_each (filter isModule styles) (style_step libs textDocument) s) /\
  (forall d,
     parse libs (TextDocument.getText textDocument) (filename_of textDocument) = Ok d ->
     Forall (fun style => isModule style = false) (styles d) ->
     fst (validateTextDocument libs textDocument s) = Ok tt /\
     completionItems (snd (validateTextDocument libs textDocument s)) = [] /\
     compItemMap (snd (validateTextDocument libs textDocument s)) = JsMap.empty).
Proof.
  split; [|split].
  - intros style E. apply style_step_non_module, E.
  - intros styles. revert s. induction styles as [|style rest IH]; intros s; [reflexivity|].
    cbn [filter]. destruct (isModule style) eqn:E.
    + cbn [for_each]. unfold bind.
      destruct (style_step libs textDocument style s) as [[[]|e] s']; [apply IH|reflexivity].
    + cbn [for_each]. unfold bind at 1.
      rewrite style_step_non_module by exact E. apply IH.
  - intros d P F. rewrite validateTextDocument_rebuild. unfold rebuild. rewrite P.
    assert (Sc : forall ks, scan_styles libs textDocument (styles d) ks = (Ok tt, ks)).
    { induction F as [|style rest E F IH]; intros ks; cbn; [reflexivity|].
      rewrite E. apply IH. }
    rewrite Sc. repeat split.
Qed.

Lemma C4_witness :
  completionItems
    (snd (validateTextDocument Demo.libs (Demo.vue "N.foo .bar;N.baz")
            (onDidChangeContent Demo.libs (Demo.vue "M.old") initial))) = [].
Proof.
  refine (proj1 (proj2 (proj2 (proj2
    (C4_non_module_blocks_contribute_nothing Demo.libs (Demo.vue "N.foo .bar;N.baz")
       (onDidChangeContent Demo.libs (Demo.vue "M.old") initial))) _ eq_refl _))).
  repeat constructor.
Defined.

(** C5. The completion handler returns the published list as it is,
    whatever position and document the request names. As long as no
    document was opened or changed the list is empty; after a change it
    is the list of the rebuild of that document. *)
Theorem C5_completion_returns_published_list (libs : Libraries)
    (p q : TextDocumentPositionParams) (s : Server) :
  onCompletion p s = completionItems s /\
  onCompletion p s = onCompletion q s /\
  onCompletion p initial = [] /\
  (forall ns,
     onCompletion p
       (run libs (filter (fun n => negb (is_change n)) ns) initial) = []) /\
  (forall document,
     onCompletion p (dispatch libs (DidOpenOrChange document) s) =
       map item_of (snd (rebuild libs document)) /\
     onCompletion p (dispatch libs (DidOpenOrChange document) s) =
       JsMap.values (compItemMap (dispatch libs (DidOpenOrChange document) s))).
Proof.
  repeat split.
  - intros ns. apply run_without_change; reflexivity.
  - cbn [dispatch]. rewrite onDidChangeContent_publish. reflexivity.
  - cbn [dispatch]. rewrite onDidChangeContent_publish. unfold onCompletion, publish.
    cbn [completionItems compItemMap with_completionItems with_compItemMap].
    rewrite values_entries. reflexivity.
Qed.

(** C6, as the claim words it, fails: a rebuild whose parse throws leaves
    an empty list where [foo] was published before. *)
Lemma C6_counterexample :
  ~ (forall libs textDocument s e,
       fst (validateTextDocument libs textDocument s) = Throw e ->
       completionItems (snd (validateTextDocument libs textDocument s)) =
       completionItems s).
Proof.
  intros H.
  specialize (H Demo.libs (Demo.vue "!")
                (onDidChangeContent Demo.libs (Demo.vue "M.foo") initial)
                "SFC parse error" eq_refl).
  discriminate H.
Qed.

(** C6 (amended). An error of the SFC parser or of a stylesheet service is
    not caught inside the rebuild: when [parse] throws, the rebuild ends
    with that error and leaves the list and the mapping empty; when the
    service of a module block throws (at [parseStylesheet] or at
    [findDocumentSymbols]) and the module blocks before it were answered,
    the rebuild ends with that error and leaves the first occurrences of
    the labels of those earlier blocks. So the published list is what the
    rebuild had built before the error, not the list of before the
    rebuild. Conversely a rebuild that ends with an error is in one of
    these two cases, and its list equals the values of the mapping. *)
Theorem C6_failed_rebuild_keeps_what_it_built (libs : Libraries)
    (textDocument : TextDocument.t) (s : Server) (e : Exn) :
  (parse libs (TextDocument.getText textDocument) (filename_of textDocument) = Throw e ->
   validateTextDocument libs textDocument s =
     (Throw e, with_completionItems [] (with_compItemMap JsMap.empty s))) /\
  (forall d pre style post syms,
     parse libs (TextDocument.getText textDocument) (filename_of textDocument) = Ok d ->
     styles d = (pre ++ style :: post)%list ->
     module_symbols libs textDocument pre = Ok syms ->
     isModule style = true ->
     block_symbols libs textDocument style = Throw e ->
     validateTextDocument libs textDocument s =
       (Throw e,
        with_completionItems
          (map item_of (Spec.first_occurrences (accepted_labels syms)))
          (with_compItemMap
             (entries (Spec.first_occurrences (accepted_labels syms))) s))) /\
  (forall style,
     block_symbols libs textDocument style = Throw e <->
     (parseStylesheet (call_factory libs (getLanguageService (lang_of style)))
        (TextDocument.create (TextDocument.uri textDocument) (lang_of style) 0
           (content style)) = Throw e \/
      exists styleSheet,
        parseStylesheet (call_factory libs (getLanguageService (lang_of style)))
          (TextDocument.create (TextDocument.uri textDocument) (lang_of style) 0
             (content style)) = Ok styleSheet /\
        findDocumentSymbols (call_factory libs (getLanguageService (lang_of style)))
          (TextDocument.create (TextDocument.uri textDocument) (lang_of style) 0
             (content style)) styleSheet = Throw e)) /\
  (fst (validateTextDocument libs textDocument s) = Throw e ->
   completionItems (snd (validateTextDocument libs textDocument s)) =
     JsMap.values (compItemMap (snd (validateTextDocument libs textDocument s))) /\
   ((parse libs (TextDocument.getText textDocument) (filename_of textDocument) = Throw e /\
     completionItems (snd (validateTextDocument libs textDocument s)) = []) \/
    (exists d pre style post syms,
       parse libs (TextDocument.getText textDocument) (filename_of textDocument) = Ok d /\
       styles d = (pre ++ style :: post)%list /\
       isModule style = true /\
       block_symbols libs textDocument style = Throw e /\
       module_symbols libs textDocument pre = Ok syms /\
       completionItems (snd (validateTextDocument libs textDocument s)) =
         map item_of (Spec.first_occurrences (accepted_labels syms))))).
Proof.
  rewrite validateTextDocument_rebuild. unfold rebuild.
  split; [|split; [|split]].
  - intros P. rewrite P. reflexivity.
  - intros d pre style post syms P Hs Hpre Hm Hb. rewrite P, Hs.
    rewrite (scan_styles_stops _ _ _ _ _ _ _ _ Hpre Hm Hb), fold_add_symbol_first.
    reflexivity.
  - intros style. apply block_symbols_throws.
  - cbn [fst snd]. intros T. split.
    + unfold publish.
      cbn [completionItems compItemMap with_completionItems with_compItemMap].
      rewrite values_entries. reflexivity.
    + destruct (parse libs _ _) as [d|e0] eqn:P.
      * right.
        destruct (scan_styles libs textDocument (styles d) []) as [r ks] eqn:Sc.
        cbn [fst snd] in *. subst r.
        destruct (scan_styles_throws _ _ _ _ _ _ Sc)
          as (pre & style & post & syms & Hs & Hm & Hb & Hp & ->).
        exists d, pre, style, post, syms.
        rewrite fold_add_symbol_first. repeat split; assumption || reflexivity.
      * left. cbn [fst snd] in *. inversion T; subst. split; reflexivity.
Qed.

Lemma C6_witness :
  validateTextDocument Demo.libs (Demo.vue "M.foo .foo;N.x;M!;M.late")
    (onDidChangeContent Demo.libs (Demo.vue "M.old") initial) =
  (Throw "syntax error",
   with_completionItems [item_of "foo"]
     (with_compItemMap [("foo", item_of "foo")]
        (onDidChangeContent Demo.libs (Demo.vue "M.old") initial))).
Proof.
  exact (proj1 (proj2
    (C6_failed_rebuild_keeps_what_it_built Demo.libs
       (Demo.vue "M.foo .foo;N.x;M!;M.late")
       (onDidChangeContent Demo.libs (Demo.vue "M.old") initial)
       "syntax error"))
    {| styles := map Demo.block ["M.foo .foo"; "N.x"; "M!"; "M.late"] |}
    [Demo.block "M.foo .foo"; Demo.block "N.x"] (Demo.block "M!")
    [Demo.block "M.late"]
    [Demo.class_symbol ".foo"; Demo.class_symbol ".foo"]
    eq_refl eq_refl eq_refl eq_refl eq_refl).
Defined.

(** C7. [getStyles] returns the [styles] array of the descriptor, in the
    descriptor's order, and never [null]: an empty array is an object, so
    [styles || null] is the empty array itself. For any source and
    filename the parser object either holds the descriptor of [parse], or
    its construction throws what [parse] throws. *)
Theorem C7_getStyles_returns_the_blocks (libs : Libraries)
    (source filename : string) (this : VueParser) :
  getStyles this = Some (styles (descriptor this)) /\
  getStyles this <> None /\
  getStyles {| descriptor := {| styles := [] |} |} = Some [] /\
  match new_VueParser libs source filename with
  | Ok parser =>
      exists d, parse libs source filename = Ok d /\
                getStyles parser = Some (styles d)
  | Throw e => parse libs source filename = Throw e
  end.
Proof.
  repeat split; try discriminate.
  unfold new_VueParser. destruct (parse libs source filename) as [d|e]; [|reflexivity].
  exists d. split; reflexivity.
Qed.

(** C8. A rebuild does not look at the mapping or the list it starts
    from: whatever they held, the outcome is the same, so no earlier entry
    survives and the earlier list is replaced in full. When the rebuild
    ends, the published list is the values of the mapping in insertion
    order, and the mapping holds the keys the rebuild has collected. *)
Theorem C8_rebuild_clears_then_publishes (libs : Libraries)
    (textDocument : TextDocument.t) (s : Server)
    (m : JsMap.t CompletionItem.t) (l : list CompletionItem.t) :
  validateTextDocument libs textDocument
    (with_completionItems l (with_compItemMap m s)) =
  validateTextDocument libs textDocument
    (with_completionItems [] (with_compItemMap JsMap.empty s)) /\
  completionItems (snd (validateTextDocument libs textDocument s)) =
    JsMap.values (compItemMap (snd (validateTextDocument libs textDocument s))) /\
  compItemMap (snd (validateTextDocument libs textDocument s)) =
    entries (snd (rebuild libs textDocument)) /\
  JsMap.keys (compItemMap (snd (validateTextDocument libs textDocument s))) =
    snd (rebuild libs textDocument).
Proof.
  rewrite !validateTextDocument_rebuild. cbn [fst snd]. unfold publish.
  cbn [completionItems compItemMap with_completionItems with_compItemMap].
  rewrite values_entries, keys_entries. repeat split.
Qed.



(** C10. In every state the server can reach, every item of the published
    list and of the mapping has a label that is not empty. A class symbol
    named ["."] has the empty bare identifier, which the guard of the loop
    rejects as it rejects a name without the leading ['.']. *)
Theorem C10_published_labels_nonempty (libs : Libraries) (s : Server) :
  reachable libs s ->
  Forall (fun item => CompletionItem.label item <> "") (completionItems s) /\
  Forall (fun kv => CompletionItem.label (snd kv) <> "") (compItemMap s) /\
  (forall k s0,
     className_of {| SymbolInformation.name := ".";
                     SymbolInformation.kind := k |} = Some "" /\
     accepted {| SymbolInformation.name := ".";
                 SymbolInformation.kind := k |} = false /\
     symbol_step {| SymbolInformation.name := ".";
                    SymbolInformation.kind := k |} s0 = (Ok tt, s0)).
Proof.
  intros R. destruct (reachable_cache libs s R) as (ks & [Hl Hm] & _ & F).
  rewrite Hl, Hm. unfold entries. rewrite !Forall_map. cbn [snd CompletionItem.label item_of].
  repeat split; try exact F.
  - destruct k; reflexivity.
  - rewrite symbol_step_run.
    replace (bare_name _) with (@None string); [reflexivity|].
    destruct k; reflexivity.
Qed.

Lemma C10_witness :
  completionItems
    (dispatch Demo.libs (DidOpenOrChange (Demo.vue "M. .foo #bar .foo-bar")) initial) =
    [item_of "foo"; item_of "foo-bar"] /\
  Forall (fun item => CompletionItem.label item <> "")
    (completionItems
       (dispatch Demo.libs (DidOpenOrChange (Demo.vue "M. .foo #bar .foo-bar")) initial)).
Proof.
  split; [reflexivity|].
  exact (proj1
    (C10_published_labels_nonempty Demo.libs _
       (reachable_dispatch Demo.libs
          (DidOpenOrChange (Demo.vue "M. .foo #bar .foo-bar")) initial
          (reachable_initial Demo.libs)))).
Defined.

(** * More of the server *)

(** ** The file name handed to the parser *)

Lemma string_app_assoc (a b c : string) : ((a ++ b) ++ c = a ++ (b ++ c))%string.
Proof. induction a as [|x a IH]; cbn; [reflexivity|rewrite IH; reflexivity]. Qed.

Lemma split_nonempty (sep : ascii) (s : string) : Js.split sep s <> [].
Proof.
  destruct s as [|c r]; cbn; [discriminate|].
  destruct (Ascii.eqb c sep); [discriminate|].
  destruct (Js.split sep r); discriminate.
Qed.

(** Joining the parts with the separator gives the string back. *)
Lemma split_concat (sep : ascii) (s : string) :
  String.concat (String sep "") (Js.split sep s) = s.
Proof.
  induction s as [|c r IH]; [reflexivity|].
  cbn [Js.split]. pose proof (split_nonempty sep r) as NE.
  destruct (Js.split sep r) as [|h t]; [contradiction NE; reflexivity|].
  destruct (Ascii.eqb_spec c sep) as [->|N].
  - change (String.concat (String sep "") ("" :: h :: t))
      with (String sep (String.concat (String sep "") (h :: t))).
    rewrite IH. reflexivity.
  - destruct t as [|h' t]; simpl in *; f_equal; exact IH.
Qed.

Lemma split_no_sep (sep : ascii) (s part : string) :
  In part (Js.split sep s) -> ~ In sep (list_ascii_of_string part).
Proof.
  revert part. induction s as [|c r IH]; intros part; cbn [Js.split].
  - intros [<-|[]] [].
  - destruct (Ascii.eqb_spec c sep) as [->|N].
    + intros [<-|I]; [intros []|apply IH, I].
    + destruct (Js.split sep r) as [|h t].
      * intros [<-|[]] [E|[]]. contradiction.
      * intros [<-|I].
        -- intros [E|I']; [contradiction|]. apply (IH h); [left; reflexivity|exact I'].
        -- apply IH. right. exact I.
Qed.

Lemma pop_In {A : Type} (xs : list A) (x : A) : Js.pop xs = Some x -> In x xs.
Proof.
  induction xs as [|y r IH]; [discriminate|].
  destruct r as [|z r].
  - intros H; inversion H. left. reflexivity.
  - intros H. right. apply IH, H.
Qed.

Lemma string_app_nil_r (a : string) : (a ++ "")%string = a.
Proof. induction a as [|x a IH]; cbn; [reflexivity|rewrite IH; reflexivity]. Qed.

Lemma concat_pop (sep : string) (xs : list string) (x : string) :
  Js.pop xs = Some x ->
  exists prefix,
    String.concat sep xs = (prefix ++ x)%string /\
    (prefix = "" \/ exists p, prefix = (p ++ sep)%string).
Proof.
  revert x. induction xs as [|y r IH]; intros x; [discriminate|].
  destruct r as [|z r].
  - intros H; inversion H; subst. exists "". split; [reflexivity|left; reflexivity].
  - intros H. destruct (IH _ H) as (prefix & E & Hp).
    exists (y ++ sep ++ prefix)%string. split.
    + change (String.concat sep (y :: z :: r))
        with (y ++ sep ++ String.concat sep (z :: r))%string.
      rewrite E, !string_app_assoc. reflexivity.
    + right. destruct Hp as [->|[p ->]].
      * exists y. rewrite string_app_nil_r. reflexivity.
      * exists (y ++ sep ++ p)%string. rewrite !string_app_assoc. reflexivity.
Qed.

(** X1. The file name given to the Vue parser is the part of the uri after
    its last ['/']: the uri is a prefix followed by the file name, the
    prefix is empty or ends with ['/'], and the file name holds no ['/'].
    The parts of the uri, joined with ['/'], are the uri. *)
Theorem X1_filename_is_last_segment (textDocument : TextDocument.t) :
  (exists prefix,
     TextDocument.uri textDocument = (prefix ++ filename_of textDocument)%string /\
     (prefix = "" \/ exists p, prefix = (p ++ "/")%string)) /\
  ~ In "/"%char (list_ascii_of_string (filename_of textDocument)) /\
  String.concat "/" (Js.split "/" (TextDocument.uri textDocument)) =
    TextDocument.uri textDocument.
Proof.
  unfold filename_of.
  destruct (pop_Some (Js.split "/" (TextDocument.uri textDocument))
              (split_nonempty _ _)) as [x Hx].
  rewrite Hx.
  assert (O : Js.or_string (Some x) "" = x).
  { unfold Js.or_string, Js.truthy_string.
    destruct (String.eqb_spec x ""); cbn; congruence. }
  rewrite O. split; [|split].
  - destruct (concat_pop "/" _ _ Hx) as (prefix & E & Hp).
    rewrite split_concat in E. exists prefix. split; assumption.
  - apply (split_no_sep "/" (TextDocument.uri textDocument)), pop_In, Hx.
  - apply split_concat.
Qed.

(** ** One cache for all documents *)

(** X2. The server keeps one cache for all documents, and it never mixes
    two of them: in every state the server can reach, the published list
    and the mapping are empty, or they are exactly what the rebuild of one
    single document leaves. *)
Theorem X2_cache_is_of_one_document (libs : Libraries) (s : Server) :
  reachable libs s ->
  (completionItems s = [] /\ compItemMap s = JsMap.empty) \/
  (exists document,
     completionItems s =
       completionItems (snd (validateTextDocument libs document initial)) /\
     compItemMap s =
       compItemMap (snd (validateTextDocument libs document initial))).
Proof.
  induction 1 as [|n s R IH].
  - left. split; reflexivity.
  - destruct n as [configuration|document|uri|settings]; cbn [dispatch].
    + exact IH.
    + right. exists document. rewrite onDidChangeContent_publish.
      rewrite validateTextDocument_rebuild. split; reflexivity.
    + exact IH.
    + rewrite onDidChangeConfiguration_run.
      destruct (hasConfigurationCapability s); [|destruct settings as [|o]];
        cbn [snd]; try exact IH; rewrite revalidate_all_last;
        (destruct (Js.pop _) as [d|];
         [right; exists d; rewrite validateTextDocument_rebuild; split; reflexivity
         |exact IH]).
Qed.

Lemma X2_witness :
  completionItems
    (run Demo.libs
       [DidOpenOrChange (Demo.vue "M.a .b");
        DidOpenOrChange (TextDocument.create "file:///src/Other.vue" "vue" 1 "M.c")]
       initial) = [item_of "c"] /\
  ((completionItems
      (run Demo.libs
         [DidOpenOrChange (Demo.vue "M.a .b");
          DidOpenOrChange (TextDocument.create "file:///src/Other.vue" "vue" 1 "M.c")]
         initial) = [] /\
    compItemMap
      (run Demo.libs
         [DidOpenOrChange (Demo.vue "M.a .b");
          DidOpenOrChange (TextDocument.create "file:///src/Other.vue" "vue" 1 "M.c")]
         initial) = JsMap.empty) \/
   (exists document,
      completionItems
        (run Demo.libs
           [DidOpenOrChange (Demo.vue "M.a .b");
            DidOpenOrChange (TextDocument.create "file:///src/Other.vue" "vue" 1 "M.c")]
           initial) =
        completionItems (snd (validateTextDocument Demo.libs document initial)) /\
      compItemMap
        (run Demo.libs
           [DidOpenOrChange (Demo.vue "M.a .b");
            DidOpenOrChange (TextDocument.create "file:///src/Other.vue" "vue" 1 "M.c")]
           initial) =
        compItemMap (snd (validateTextDocument Demo.libs document initial)))).
Proof.
  split; [reflexivity|].
  apply (X2_cache_is_of_one_document Demo.libs).
  apply reachable_dispatch, reachable_dispatch, reachable_initial.
Defined.

(** X3. A change of configuration that gets through revalidates the open
    documents in the order of the document manager, each rebuild
    replacing the cache of the one before: afterwards the published list
    is the rebuild of the last open document of that order, and it is
    left as it was when no document is open. Without the configuration
    capability a change whose settings are [null] or [undefined] throws
    before any revalidation and leaves the list as it was. *)
Theorem X3_configuration_change_publishes_last_document (libs : Libraries)
    (settings : ChangeSettings) (s : Server) :
  completionItems (dispatch libs (DidChangeConfiguration settings) s) =
  match settings, hasConfigurationCapability s with
  | SettingsNullish, false => completionItems s
  | _, _ =>
      match Js.pop (JsMap.values (documents s)) with
      | Some document => completionItems (snd (validateTextDocument libs document s))
      | None => completionItems s
      end
  end.
Proof.
  cbn [dispatch]. rewrite onDidChangeConfiguration_run.
  destruct (hasConfigurationCapability s); [|destruct settings as [|o]]; cbn [snd].
  - rewrite revalidate_all_list.
    destruct settings; (destruct (Js.pop _) as [d|];
      [rewrite validateTextDocument_rebuild|]; reflexivity).
  - reflexivity.
  - rewrite revalidate_all_list.
    destruct (Js.pop _) as [d|]; [rewrite validateTextDocument_rebuild|]; reflexivity.
Qed.

(** X4. In every state the server can reach, the list and the mapping
    agree: the list is the values of the mapping in insertion order, the
    keys are pairwise distinct, each key holds the item labelled with it,
    every item has the kind Property, and looking a label up in the
    mapping finds an item exactly when the label is published. *)
Theorem X4_list_and_mapping_agree (libs : Libraries) (s : Server) :
  reachable libs s ->
  completionItems s = JsMap.values (compItemMap s) /\
  NoDup (JsMap.keys (compItemMap s)) /\
  Forall (fun kv => snd kv = item_of (fst kv)) (compItemMap s) /\
  Forall (fun it => CompletionItem.kind it = CompletionItemKind.Property)
    (completionItems s) /\
  (forall c,
     JsMap.get c (compItemMap s) =
     if mem c (map CompletionItem.label (completionItems s))
     then Some (item_of c) else None).
Proof.
  intros R. destruct (reachable_cache libs s R) as (ks & [Hl Hm] & N & _).
  rewrite Hl, Hm, values_entries, keys_entries, label_item_of.
  repeat split; try assumption.
  - unfold entries. rewrite Forall_map. apply Forall_forall. reflexivity.
  - rewrite Forall_map. apply Forall_forall. reflexivity.
  - intros c. apply get_entries.
Qed.

Lemma X4_witness :
  JsMap.get "b"
    (compItemMap
       (dispatch Demo.libs (DidOpenOrChange (Demo.vue "M.a .b;N.c")) initial)) =
    Some (item_of "b") /\
  JsMap.get "c"
    (compItemMap
       (dispatch Demo.libs (DidOpenOrChange (Demo.vue "M.a .b;N.c")) initial)) =
    None.
Proof.
  pose proof (X4_list_and_mapping_agree Demo.libs
    (dispatch Demo.libs (DidOpenOrChange (Demo.vue "M.a .b;N.c")) initial)
    (reachable_dispatch Demo.libs (DidOpenOrChange (Demo.vue "M.a .b;N.c")) initial
       (reachable_initial Demo.libs)))
    as (_ & _ & _ & _ & G).
  split; [exact (G "b")|exact (G "c")].
Defined.

(** ** Where a published label comes from *)

Lemma add_symbol_In (ks : list string) (sym : SymbolInformation.t) (c : string) :
  In c (add_symbol ks sym) -> In c ks \/ bare_name sym = Some c.
Proof.
  unfold add_symbol, add_label. destruct (bare_name sym) as [c'|]; [|auto].
  destruct (mem c' ks); [auto|].
  rewrite in_app_iff. intros [I|[<-|[]]]; auto.
Qed.

Lemma fold_add_symbol_In (syms : list SymbolInformation.t) (ks : list string)
    (c : string) :
  In c (fold_left add_symbol syms ks) ->
  In c ks \/ exists sym, In sym syms /\ bare_name sym = Some c.
Proof.
  revert ks. induction syms as [|sym syms IH]; intros ks; cbn [fold_left]; [auto|].
  intros I. destruct (IH _ I) as [I'|(sym' & Hs & Hb)].
  - destruct (add_symbol_In _ _ _ I') as [Hk|Hb]; [auto|].
    right. exists sym. split; [left; reflexivity|exact Hb].
  - right. exists sym'. split; [right; exact Hs|exact Hb].
Qed.

Lemma scan_styles_In (libs : Libraries) (textDocument : TextDocument.t)
    (styles : list SFCBlock) (ks : list string) (c : string) :
  In c (snd (scan_styles libs textDocument styles ks)) ->
  In c ks \/
  exists style syms sym,
    In style styles /\ isModule style = true /\
    block_symbols libs textDocument style = Ok syms /\
    In sym syms /\ bare_name sym = Some c.
Proof.
  revert ks. induction styles as [|style rest IH]; intros ks; cbn [scan_styles]; [auto|].
  destruct (isModule style) eqn:E.
  - destruct (block_symbols libs textDocument style) as [syms|e] eqn:B; [|auto].
    intros I. destruct (IH _ I) as [I'|(st & sy & sym & H1 & H2 & H3 & H4 & H5)].
    + destruct (fold_add_symbol_In _ _ _ I') as [Hk|(sym & Hs & Hb)]; [auto|].
      right. exists style, syms, sym. repeat split; auto. left. reflexivity.
    + right. exists st, sy, sym. repeat split; auto. right. exact H1.
  - intros I. destruct (IH _ I) as [I'|(st & sy & sym & H1 & H2 & H3 & H4 & H5)]; [auto|].
    right. exists st, sy, sym. repeat split; auto. right. exact H1.
Qed.

(** X5. Whether a rebuild returns or throws, every label it leaves
    published comes from the document: the document parsed, one of its
    module blocks was answered by its language service, and the answer
    holds a class symbol whose name is ['.'] followed by the label. *)
Theorem X5_published_label_has_a_class_symbol (libs : Libraries)
    (textDocument : TextDocument.t) (s : Server) (c : string) :
  In c (map CompletionItem.label
          (completionItems (snd (validateTextDocument libs textDocument s)))) ->
  exists d style syms sym,
    parse libs (TextDocument.getText textDocument) (filename_of textDocument) = Ok d /\
    In style (styles d) /\ isModule style = true /\
    block_symbols libs textDocument style = Ok syms /\
    In sym syms /\
    SymbolInformation.kind sym = SymbolKind.Class /\
    SymbolInformation.name sym = String "." c.
Proof.
  rewrite validateTextDocument_rebuild. cbn [snd]. unfold publish.
  cbn [completionItems with_completionItems]. rewrite label_item_of.
  unfold rebuild. destruct (parse libs _ _) as [d|e]; [|intros []].
  intros I. destruct (scan_styles_In _ _ _ _ _ I) as [[]|(st & sy & sym & H1 & H2 & H3 & H4 & H5)].
  apply bare_name_Some in H5 as (K & N & _).
  exists d, st, sy, sym. repeat split; assumption.
Qed.

Lemma X5_witness :
  exists d style syms sym,
    parse Demo.libs (TextDocument.getText (Demo.vue "N.x;M.a #b;M!"))
      (filename_of (Demo.vue "N.x;M.a #b;M!")) = Ok d /\
    In style (styles d) /\ isModule style = true /\
    block_symbols Demo.libs (Demo.vue "N.x;M.a #b;M!") style = Ok syms /\
    In sym syms /\
    SymbolInformation.kind sym = SymbolKind.Class /\
    SymbolInformation.name sym = ".a".
Proof.
  apply (X5_published_label_has_a_class_symbol Demo.libs
           (Demo.vue "N.x;M.a #b;M!") initial "a").
  left. reflexivity.
Defined.

(** ** The SCSS and LESS services are out of reach of a language tag *)

Lemma block_symbols_css (libs : Libraries)
    (scss less : LanguageService (Stylesheet libs))
    (textDocument : TextDocument.t) (style : SFCBlock) :
  lang_of style <> ".less" -> lang_of style <> ".scss" ->
  block_symbols (with_scss_less libs scss less) textDocument style =
  block_symbols libs textDocument style.
Proof.
  unfold lang_of, block_symbols. intros L S.
  rewrite (getLanguageService_css _ L S). reflexivity.
Qed.

Lemma scan_styles_css (libs : Libraries)
    (scss less : LanguageService (Stylesheet libs))
    (textDocument : TextDocument.t) (styles : list SFCBlock) (ks : list string) :
  Forall (fun style => lang_of style <> ".less" /\ lang_of style <> ".scss") styles ->
  scan_styles (with_scss_less libs scss less) textDocument styles ks =
  scan_styles libs textDocument styles ks.
Proof.
  intros F. revert ks. induction F as [|style rest [L S] F IH]; intros ks; [reflexivity|].
  cbn [scan_styles]. rewrite (block_symbols_css _ _ _ _ _ L S).
  destruct (isModule style); [|apply IH].
  destruct (block_symbols libs textDocument style); [apply IH|reflexivity].
Qed.

(** X6. As long as no style block of the document carries the language
    tag ['.less'] or ['.scss'] with its leading dot, the rebuild never
    calls the LESS or the SCSS service: with any other two services in
    their place it has the same outcome and leaves the same state. *)
Theorem X6_rebuild_without_scss_and_less (libs : Libraries)
    (scss less : LanguageService (Stylesheet libs))
    (textDocument : TextDocument.t) (s : Server) :
  (forall d,
     parse libs (TextDocument.getText textDocument) (filename_of textDocument) = Ok d ->
     Forall (fun style => lang_of style <> ".less" /\ lang_of style <> ".scss")
       (styles d)) ->
  validateTextDocument (with_scss_less libs scss less) textDocument s =
  validateTextDocument libs textDocument s.
Proof.
  intros H. rewrite !validateTextDocument_rebuild. unfold rebuild.
  cbn [parse with_scss_less].
  destruct (parse libs _ _) as [d|e]; [|reflexivity].
  rewrite scan_styles_css by (apply H; reflexivity). reflexivity.
Qed.

Lemma X6_witness :
  validateTextDocument
    (with_scss_less Demo.libs (Demo.service [".other"]) (Demo.service [".more"]))
    (Demo.vue "S.a;L.b;M.c") initial =
  validateTextDocument Demo.libs (Demo.vue "S.a;L.b;M.c") initial.
Proof.
  apply (X6_rebuild_without_scss_and_less Demo.libs).
  intros d E. injection E as <-. cbn.
  repeat constructor; discriminate.
Defined.

(** ** The resolve handler *)

(** X7. Resolving an item never touches its label or its kind, resolving
    twice is resolving once, and only an item labelled ["label"] or
    ["world"] comes back different from what was sent. *)
Theorem X7_resolve_keeps_the_item (it : ResolveItem) :
  item (onCompletionResolve it) = item it /\
  onCompletionResolve (onCompletionResolve it) = onCompletionResolve it /\
  (onCompletionResolve it = it \/
   CompletionItem.label (item it) = "label" \/
   CompletionItem.label (item it) = "world").
Proof.
  unfold onCompletionResolve.
  destruct (String.eqb_spec (CompletionItem.label (item it)) "label") as [L|L].
  - cbn [item]. rewrite L. cbn. auto.
  - destruct (String.eqb_spec (CompletionItem.label (item it)) "world") as [W|W].
    + cbn [item]. rewrite W. cbn. auto.
    + apply String.eqb_neq in L, W. rewrite L, W. auto.
Qed.

(** ** The settings cache *)

Lemma get_set_other {V : Type} (k k' : string) (v : V) (m : JsMap.t V) :
  k' <> k -> JsMap.get k' (JsMap.set k v m) = JsMap.get k' m.
Proof.
  intros N. induction m as [|[k0 v0] m IH]; cbn.
  - apply String.eqb_neq in N. rewrite String.eqb_sym, N. reflexivity.
  - destruct (String.eqb_spec k0 k) as [->|N0]; cbn.
    + apply String.eqb_neq in N. rewrite String.eqb_sym, N. reflexivity.
    + destruct (k0 =? k'); [reflexivity|exact IH].
Qed.

Lemma get_None_keys {V : Type} (k : string) (m : JsMap.t V) :
  JsMap.get k m = None <-> ~ In k (JsMap.keys m).
Proof.
  induction m as [|[k0 v0] m IH]; cbn; [tauto|].
  destruct (String.eqb_spec k0 k) as [->|N].
  - split; [discriminate|]. intros H. contradiction H. left. reflexivity.
  - rewrite IH. tauto.
Qed.

Lemma get_delete_same {V : Type} (k : string) (m : JsMap.t V) :
  NoDup (JsMap.keys m) -> JsMap.get k (JsMap.delete k m) = None.
Proof.
  induction m as [|[k0 v0] m IH]; cbn; [reflexivity|].
  intros N. inversion N as [|? ? NI N']; subst.
  destruct (String.eqb_spec k0 k) as [->|Nk].
  - apply get_None_keys, NI.
  - cbn. apply String.eqb_neq in Nk. rewrite Nk. apply IH, N'.
Qed.

Lemma get_delete_other {V : Type} (k k' : string) (m : JsMap.t V) :
  k' <> k -> JsMap.get k' (JsMap.delete k m) = JsMap.get k' m.
Proof.
  intros N. induction m as [|[k0 v0] m IH]; cbn; [reflexivity|].
  destruct (String.eqb_spec k0 k) as [->|N0]; cbn.
  - apply String.eqb_neq in N. rewrite String.eqb_sym, N. reflexivity.
  - destruct (k0 =? k'); [reflexivity|exact IH].
Qed.

Lemma keys_set {V : Type} (k : string) (v : V) (m : JsMap.t V) :
  JsMap.keys (JsMap.set k v m) =
  if mem k (JsMap.keys m) then JsMap.keys m else (JsMap.keys m ++ [k])%list.
Proof.
  induction m as [|[k0 v0] m IH]; cbn; [reflexivity|].
  rewrite (String.eqb_sym k k0).
  destruct (String.eqb_spec k0 k) as [->|N]; cbn; [reflexivity|].
  unfold JsMap.keys in IH. rewrite IH. fold (mem k (map fst m)).
  destruct (mem k (map fst m)); reflexivity.
Qed.

Lemma keys_set_NoDup {V : Type} (k : string) (v : V) (m : JsMap.t V) :
  NoDup (JsMap.keys m) -> NoDup (JsMap.keys (JsMap.set k v m)).
Proof.
  intros N. rewrite keys_set. apply (add_label_NoDup _ k N).
Qed.

(** X8. The settings of a document are asked from the client at most
    once: after a call for a resource, a second call for it returns the
    same settings, leaves the state as it is and sends no request,
    whatever the client would answer now. The first call leaves what is
    cached for every other resource, and keeps the keys of the cache
    pairwise distinct. *)
Theorem X8_document_settings_are_cached
    (getConfiguration getConfiguration' : string -> Settings)
    (resource : string) (s : Server) :
  let first := getDocumentSettings getConfiguration resource s in
  getDocumentSettings getConfiguration' resource (snd (fst first)) =
    (fst (fst first), snd (fst first), []) /\
  (forall other, other <> resource ->
     JsMap.get other (documentSettings (snd (fst first))) =
     JsMap.get other (documentSettings s)) /\
  (NoDup (JsMap.keys (documentSettings s)) ->
   NoDup (JsMap.keys (documentSettings (snd (fst first))))).
Proof.
  unfold getDocumentSettings.
  destruct (hasConfigurationCapability s) eqn:C; cbn [negb].
  - destruct (JsMap.get resource (documentSettings s)) as [r|] eqn:G; cbn [fst snd].
    + rewrite C, G. cbn. auto.
    + cbn [hasConfigurationCapability documentSettings with_documentSettings].
      rewrite C, get_set_same. cbn [negb]. repeat split.
      * intros other N. apply get_set_other, N.
      * apply keys_set_NoDup.
  - cbn [fst snd]. rewrite C. cbn. auto.
Qed.

Lemma X8_witness :
  NoDup (JsMap.keys (documentSettings
    (snd (fst (getDocumentSettings (fun _ => {| maxNumberOfProblems := 7 |})
                 "file:///src/App.vue" (onInitialize true initial)))))) /\
  getDocumentSettings (fun _ => {| maxNumberOfProblems := 9 |}) "file:///src/App.vue"
    (snd (fst (getDocumentSettings (fun _ => {| maxNumberOfProblems := 7 |})
                 "file:///src/App.vue" (onInitialize true initial)))) =
  ({| maxNumberOfProblems := 7 |},
   with_documentSettings [("file:///src/App.vue", {| maxNumberOfProblems := 7 |})]
     (onInitialize true initial),
   []).
Proof.
  pose proof (X8_document_settings_are_cached
    (fun _ => {| maxNumberOfProblems := 7 |}) (fun _ => {| maxNumberOfProblems := 9 |})
    "file:///src/App.vue" (onInitialize true initial)) as (A & _ & N).
  split; [apply N; constructor|exact A].
Defined.

(** X9. Closing a document evicts its settings and no others: with the
    configuration capability, the next call for the closed document asks
    the client again and caches the answer, and what is cached for every
    other resource stays. *)
Theorem X9_close_evicts_the_settings (getConfiguration : string -> Settings)
    (uri : string) (s : Server) :
  hasConfigurationCapability s = true ->
  NoDup (JsMap.keys (documentSettings s)) ->
  getDocumentSettings getConfiguration uri (onDidClose uri s) =
    (getConfiguration uri,
     with_documentSettings
       (JsMap.set uri (getConfiguration uri) (JsMap.delete uri (documentSettings s))) s,
     [uri]) /\
  (forall other, other <> uri ->
     JsMap.get other (documentSettings (onDidClose uri s)) =
     JsMap.get other (documentSettings s)).
Proof.
  intros C N. unfold getDocumentSettings, onDidClose.
  cbn [hasConfigurationCapability documentSettings with_documentSettings].
  rewrite C, (get_delete_same _ _ N). cbn [negb]. split; [reflexivity|].
  intros other O. apply get_delete_other, O.
Qed.

Lemma X9_witness :
  getDocumentSettings (fun _ => {| maxNumberOfProblems := 9 |}) "a.vue"
    (onDidClose "a.vue"
       (with_documentSettings
          [("a.vue", {| maxNumberOfProblems := 7 |});
           ("b.vue", {| maxNumberOfProblems := 8 |})]
          (onInitialize true initial))) =
  ({| maxNumberOfProblems := 9 |},
   with_documentSettings
     [("b.vue", {| maxNumberOfProblems := 8 |});
      ("a.vue", {| maxNumberOfProblems := 9 |})]
     (onInitialize true initial),
   ["a.vue"]).
Proof.
  refine (proj1 (X9_close_evicts_the_settings
    (fun _ => {| maxNumberOfProblems := 9 |}) "a.vue"
    (with_documentSettings
       [("a.vue", {| maxNumberOfProblems := 7 |});
        ("b.vue", {| maxNumberOfProblems := 8 |})]
       (onInitialize true initial)) eq_refl _)).
  repeat constructor; cbn; intuition discriminate.
Defined.

(** ** What a change of configuration does to the settings *)

Lemma onDidChangeConfiguration_fields (libs : Libraries)
    (settings : ChangeSettings) (s : Server) :
  fst (onDidChangeConfiguration libs settings s) =
    match settings, hasConfigurationCapability s with
    | SettingsNullish, false => Throw TypeError
    | _, _ => Ok tt
    end /\
  globalSettings (snd (onDidChangeConfiguration libs settings s)) =
    match settings, hasConfigurationCapability s with
    | SettingsObject (Some g), false => g
    | SettingsObject None, false => defaultSettings
    | _, _ => globalSettings s
    end /\
  documentSettings (snd (onDidChangeConfiguration libs settings s)) =
    (if hasConfigurationCapability s then JsMap.empty else documentSettings s) /\
  hasConfigurationCapability (snd (onDidChangeConfiguration libs settings s)) =
    hasConfigurationCapability s /\
  documents (snd (onDidChangeConfiguration libs settings s)) = documents s.
Proof.
  rewrite onDidChangeConfiguration_run.
  destruct (hasConfigurationCapability s) eqn:C; [|destruct settings as [|[g|]]];
    cbn [fst snd]; rewrite ?revalidate_all_last;
    try (destruct settings as [|[g|]]); try (destruct (Js.pop _)); cbn;
    rewrite ?C; repeat split.
Qed.

(** X10. With the configuration capability a change of configuration
    empties the settings cache and leaves the global settings, whatever
    it carries. Without it, a change whose settings are [null] or
    [undefined] throws a TypeError and leaves the whole state; otherwise
    the global settings become [settings.languageServerExample], or the
    default settings when that is missing, and the cache is left. The
    capability flag and the open documents stay as they were through the
    revalidation. *)
Theorem X10_configuration_change_and_settings (libs : Libraries)
    (settings : ChangeSettings) (s : Server) :
  fst (onDidChangeConfiguration libs settings s) =
    match settings, hasConfigurationCapability s with
    | SettingsNullish, false => Throw TypeError
    | _, _ => Ok tt
    end /\
  (hasConfigurationCapability s = false ->
   onDidChangeConfiguration libs SettingsNullish s = (Throw TypeError, s)) /\
  globalSettings (dispatch libs (DidChangeConfiguration settings) s) =
    match settings, hasConfigurationCapability s with
    | SettingsObject (Some g), false => g
    | SettingsObject None, false => defaultSettings
    | _, _ => globalSettings s
    end /\
  documentSettings (dispatch libs (DidChangeConfiguration settings) s) =
    (if hasConfigurationCapability s then JsMap.empty else documentSettings s) /\
  hasConfigurationCapability (dispatch libs (DidChangeConfiguration settings) s) =
    hasConfigurationCapability s /\
  documents (dispatch libs (DidChangeConfiguration settings) s) = documents s.
Proof.
  cbn [dispatch].
  destruct (onDidChangeConfiguration_fields libs settings s) as (A & B & C & D & E).
  repeat split; try assumption.
  intros H. rewrite onDidChangeConfiguration_run, H. reflexivity.
Qed.

Lemma X10_witness :
  onDidChangeConfiguration Demo.libs SettingsNullish
    (dispatch Demo.libs
       (DidChangeConfiguration (SettingsObject (Some {| maxNumberOfProblems := 5 |})))
       (dispatch Demo.libs (DidOpenOrChange (Demo.vue "M.a")) initial)) =
  (Throw TypeError,
   dispatch Demo.libs
     (DidChangeConfiguration (SettingsObject (Some {| maxNumberOfProblems := 5 |})))
     (dispatch Demo.libs (DidOpenOrChange (Demo.vue "M.a")) initial)).
Proof.
  exact (proj1 (proj2
    (X10_configuration_change_and_settings Demo.libs SettingsNullish
       (dispatch Demo.libs
          (DidChangeConfiguration (SettingsObject (Some {| maxNumberOfProblems := 5 |})))
          (dispatch Demo.libs (DidOpenOrChange (Demo.vue "M.a")) initial))))
    eq_refl).
Defined.

(** X11. No handler fills the settings cache: in every state the server
    can reach it is empty, so closing a document or changing the
    configuration never has an entry to drop. *)
Theorem X11_settings_cache_stays_empty (libs : Libraries) (s : Server) :
  reachable libs s -> documentSettings s = JsMap.empty.
Proof.
  induction 1 as [|n s R IH]; [reflexivity|].
  destruct n as [configuration|document|uri|settings]; cbn [dispatch].
  - exact IH.
  - rewrite onDidChangeContent_publish. exact IH.
  - unfold onDidClose.
    cbn [documentSettings with_documentSettings with_documents]. rewrite IH. reflexivity.
  - destruct (onDidChangeConfiguration_fields libs settings s) as (_ & _ & C & _).
    rewrite C. destruct (hasConfigurationCapability s); [reflexivity|exact IH].
Qed.

Lemma X11_witness :
  documentSettings
    (run Demo.libs
       [Initialize true; DidOpenOrChange (Demo.vue "M.a");
        DidChangeConfiguration (SettingsObject (Some {| maxNumberOfProblems := 5 |}));
        DidClose "file:///src/App.vue"]
       initial) = JsMap.empty.
Proof.
  apply (X11_settings_cache_stays_empty Demo.libs).
  apply reachable_dispatch, reachable_dispatch, reachable_dispatch,
    reachable_dispatch, reachable_initial.
Defined.

(** ** Within a rebuild items are only appended *)

Lemma for_each_app {A : Type} (xs ys : list A) (body : A -> M unit) (s : Server) :
  for_each (xs ++ ys) body s = bind (for_each xs body) (fun _ => for_each ys body) s.
Proof.
  revert s. induction xs as [|x xs IH]; intros s; [reflexivity|].
  cbn [app for_each]. unfold bind.
  destruct (body x s) as [[[]|e] s']; [|reflexivity].
  rewrite IH. reflexivity.
Qed.

Lemma fold_add_symbol_extends (syms : list SymbolInformation.t) (ks : list string) :
  exists more, fold_left add_symbol syms ks = (ks ++ more)%list.
Proof.
  rewrite fold_add_symbol_labels, fold_add_label_first. eauto.
Qed.

Lemma scan_styles_extends (libs : Libraries) (textDocument : TextDocument.t)
    (styles : list SFCBlock) (ks : list string) :
  exists more, snd (scan_styles libs textDocument styles ks) = (ks ++ more)%list.
Proof.
  revert ks. induction styles as [|style rest IH]; intros ks; cbn [scan_styles].
  - exists []. cbn. rewrite app_nil_r. reflexivity.
  - destruct (isModule style); [|apply IH].
    destruct (block_symbols libs textDocument style) as [syms|e].
    + destruct (fold_add_symbol_extends syms ks) as [m1 ->].
      destruct (IH (ks ++ m1)%list) as [m2 ->].
      exists (m1 ++ m2)%list. rewrite app_assoc. reflexivity.
    + exists []. cbn. rewrite app_nil_r. reflexivity.
Qed.

(** X12. Within a rebuild the published list only grows at its end: what
    the blocks processed so far have published stays in place, in the
    same order, while the blocks that follow are processed, whether they
    are skipped, add items or throw. *)
Theorem X12_later_blocks_only_append (libs : Libraries)
    (textDocument : TextDocument.t) (before after : list SFCBlock) (s : Server) :
  exists more,
    completionItems
      (snd (for_each (before ++ after) (style_step libs textDocument)
              (with_completionItems [] (with_compItemMap JsMap.empty s)))) =
    (completionItems
       (snd (for_each before (style_step libs textDocument)
               (with_completionItems [] (with_compItemMap JsMap.empty s))))
     ++ more)%list.
Proof.
  change (with_completionItems [] (with_compItemMap JsMap.empty s)) with (publish [] s).
  rewrite for_each_app. unfold bind. rewrite for_each_styles.
  destruct (scan_styles libs textDocument before []) as [[[]|e] ks]; cbn [fst snd].
  - rewrite for_each_styles. cbn [snd].
    destruct (scan_styles_extends libs textDocument after ks) as [more ->].
    exists (map item_of more). unfold publish.
    cbn [completionItems with_completionItems]. apply map_app.
  - exists []. rewrite app_nil_r. reflexivity.
Qed.
